(** * Participant upload and search server: model and verified properties

    Shallow embedding of the Express server of [src/script.js]
    (the part after the front-end class): the upload handler
    [POST /api/upload], the search handler [GET /api/participants] and the
    detail handler [GET /api/participants/:p_no].

    Modelling conventions.
    - A JavaScript string is a [string] of ASCII characters; [toUpperCase],
      [toLowerCase] and [trim] are the ASCII restrictions of the JavaScript
      methods (letters a-z/A-Z, white space TAB, LF, VT, FF, CR, SPACE).
    - A spreadsheet cell, as [xlsx.utils.sheet_to_json] delivers it, is a
      [JSValue]: a string, a number or a boolean; a cell that is absent from
      the row object reads as [JUndefined].  Numbers are the integers ([Z]),
      printed in decimal.
    - A row object is a finite map from column names to cells.
    - The handlers are state transformers over [ServerState]: the in-memory
      array [participants] and the sequence of snapshots handed to
      [fs.writeFile] by [saveDataToFile].
    - [new Date().toISOString()] is read from a clock [now], indexed by the
      number of records created so far in the request.
    - The query parameters [page] and [limit] are the integers that
      [parseInt] yields; [limit = 0] (a division by zero in JavaScript) is
      not covered by any statement below. *)

From Stdlib Require Import Ascii.
From stdpp Require Import gmap strings list fin_maps pretty.

Local Open Scope Z_scope.
Set Warnings "-clear-no-such-hyp".

(* ================================================================== *)
(** * JavaScript primitives *)

Module JS.

Inductive JSValue :=
| JUndefined
| JString (s : string)
| JNumber (z : Z)
| JBool (b : bool).

#[global] Instance JSValue_eq_dec : EqDecision JSValue.
Proof. solve_decision. Defined.

Definition JSValue_to_sum (v : JSValue) : unit + string + Z + bool :=
  match v with
  | JUndefined => inl (inl (inl tt))
  | JString s => inl (inl (inr s))
  | JNumber z => inl (inr z)
  | JBool b => inr b
  end.

Definition JSValue_of_sum (x : unit + string + Z + bool) : JSValue :=
  match x with
  | inl (inl (inl _)) => JUndefined
  | inl (inl (inr s)) => JString s
  | inl (inr z) => JNumber z
  | inr b => JBool b
  end.

#[global] Instance JSValue_countable : Countable JSValue.
Proof.
  refine (inj_countable' JSValue_to_sum JSValue_of_sum _).
  intros v. destruct v; reflexivity.
Defined.

(** [ToBoolean]: the test performed by [if (v)], [!v] and [v || d]. *)
Definition truthy (v : JSValue) : bool :=
  match v with
  | JUndefined => false
  | JString s => negb (bool_decide (s = ""))
  | JNumber z => negb (z =? 0)
  | JBool b => b
  end.

(** [String(v)], also the conversion of a template literal. *)
Definition ToString (v : JSValue) : string :=
  match v with
  | JUndefined => "undefined"
  | JString s => s
  | JNumber z => pretty z
  | JBool true => "true"
  | JBool false => "false"
  end.

(** [v || d] *)
Definition or_else (v d : JSValue) : JSValue := if truthy v then v else d.

Definition ascii_toUpperCase (c : ascii) : ascii :=
  let n := N_of_ascii c in
  if ((97 <=? n) && (n <=? 122))%N then ascii_of_N (n - 32) else c.

Definition ascii_toLowerCase (c : ascii) : ascii :=
  let n := N_of_ascii c in
  if ((65 <=? n) && (n <=? 90))%N then ascii_of_N (n + 32) else c.

Fixpoint string_map (f : ascii → ascii) (s : string) : string :=
  match s with
  | EmptyString => EmptyString
  | String c s' => String (f c) (string_map f s')
  end.

(** [s.toUpperCase()] and [s.toLowerCase()] on ASCII text ([asciiText]
    below).  JavaScript also folds letters outside ASCII (É to é), which
    these two functions leave as they are: they are the JavaScript methods
    on ASCII text only, and a statement that rests on what case folding
    does to a text says that the text is ASCII. *)
Definition toUpperCase : string → string := string_map ascii_toUpperCase.
Definition toLowerCase : string → string := string_map ascii_toLowerCase.

(** ASCII text: every character has a code below 128. *)
Definition asciiChar (c : ascii) : bool := (N_of_ascii c <? 128)%N.

Fixpoint asciiText (s : string) : bool :=
  match s with
  | EmptyString => true
  | String c s' => asciiChar c && asciiText s'
  end.

Fixpoint trimStart (s : string) : string :=
  match s with
  | EmptyString => EmptyString
  | String c s' => if Ascii.is_space c then trimStart s' else s
  end.

Definition trimEnd (s : string) : string :=
  String.rev (trimStart (String.rev s)).

Definition trim (s : string) : string := trimEnd (trimStart s).

(** [s.includes(needle)] on strings. *)
Fixpoint includes (s needle : string) : bool :=
  String.prefix needle s ||
  match s with
  | EmptyString => false
  | String _ s' => includes s' needle
  end.

(** [arr.join(sep)] on an array of strings. *)
Fixpoint join (sep : string) (l : list string) : string :=
  match l with
  | [] => ""
  | [x] => x
  | x :: rest => x +:+ sep +:+ join sep rest
  end.

(** [arr.slice(start, end)], with the relative (negative) indices of
    [Array.prototype.slice]. *)
Definition slice {A} (l : list A) (start end_ : Z) : list A :=
  let len := Z.of_nat (length l) in
  let k := if start <? 0 then Z.max (len + start) 0 else Z.min start len in
  let final := if end_ <? 0 then Z.max (len + end_) 0 else Z.min end_ len in
  take (Z.to_nat (final - k)) (drop (Z.to_nat k) l).

(** [Math.ceil(a / b)] on integers, [b] non-zero. *)
Definition Math_ceil_div (a b : Z) : Z := - ((- a) `div` b).

(** [arr.forEach((x, index) => ...)] as a left fold over the state the
    callback mutates. *)
Fixpoint forEach_from {A S} (f : S → A → nat → S) (l : list A) (index : nat)
    (s : S) : S :=
  match l with
  | [] => s
  | x :: rest => forEach_from f rest (Datatypes.S index) (f s x index)
  end.

Definition forEach {A S} (f : S → A → nat → S) (l : list A) (s : S) : S :=
  forEach_from f l 0%nat s.

End JS.

Import JS.

(* ================================================================== *)
(** * The server *)

Module Server.

(** A row object of [jsonData]. *)
Abbreviation Row := (gmap string JSValue).

(** [row[col]] *)
Definition get (row : Row) (col : string) : JSValue :=
  default JUndefined (row !! col).

(** [row.hasOwnProperty(col)] *)
Definition hasOwnProperty (row : Row) (col : string) : bool :=
  bool_decide (is_Some (row !! col)).

Record Participant := mkParticipant {
  p_no : string;
  mobile_no : string;
  name : string;
  trade : string;
  gender : string;
  attendance_day1 : string;
  attendance_day2 : string;
  created_at : string
}.

#[global] Instance Participant_eq_dec : EqDecision Participant.
Proof. solve_decision. Defined.

(** The process state: the array [participants] and the snapshots passed
    to [fs.writeFile(DATA_FILE, ...)], oldest first. *)
Record ServerState := mkServerState {
  participants : list Participant;
  file_writes : list (list Participant)
}.

Record Pagination := mkPagination {
  total : Z;
  page : Z;
  totalPages : Z;
  limit : Z;
  hasNext : bool;
  hasPrev : bool
}.

(** The JSON bodies the three handlers send. *)
Inductive Body :=
| BError (error : string)
| BMissingColumns (error : string) (missingColumns : list string)
| BValidation (error : string) (validationErrors : list string)
| BUpload (message : string) (insertedRecords duplicatesSkipped : Z)
| BSearch (found : list Participant) (pagination : Pagination)
| BParticipant (p : Participant).

Record Response := mkResponse { status : Z; body : Body }.

Definition saveDataToFile (st : ServerState) : ServerState :=
  {| participants := participants st;
     file_writes := file_writes st ++ [participants st] |}.

(** ** POST /api/upload *)

Definition requiredColumns : list string :=
  ["P.No"; "Mobile No"; "Name"; "Trade"; "Gender";
   "Attendance Day 1"; "Attendance Day 2"].

(** [jsonData[0] || {}] *)
Definition firstRow (jsonData : list Row) : Row :=
  match jsonData with
  | row :: _ => row
  | [] => ∅
  end.

Definition missingColumns (jsonData : list Row) : list string :=
  filter (λ col, negb (hasOwnProperty (firstRow jsonData) col))
         requiredColumns.

(** State of the validation loop. *)
Record Validation := mkValidation {
  validationErrors : list string;
  seenPNo : gset JSValue;
  seenMobileNo : gset JSValue
}.

Definition rowLabel (index : nat) : string :=
  "Row " +:+ pretty (Z.of_nat index + 2) +:+ ": ".

Definition push_when (c : bool) (msg : string) (errs : list string)
    : list string :=
  if c then errs ++ [msg] else errs.

Definition add_when (c : bool) (v : JSValue) (s : gset JSValue)
    : gset JSValue :=
  if c then {[ v ]} ∪ s else s.

Definition normalizeAttendance (v : JSValue) : string :=
  trim (toUpperCase (ToString v)).

Definition validAttendance (day : string) : bool :=
  bool_decide (day ∈ ["P"; "A"]).

(** The messages the loop body pushes for one row, in order. *)
Definition rowErrors (seenP seenM : gset JSValue) (index : nat) (row : Row)
    : list string :=
  let errs := [] in
  let errs :=
    push_when (negb (truthy (get row "P.No"))
               || negb (truthy (get row "Mobile No"))
               || negb (truthy (get row "Name")))
      (rowLabel index +:+ "Missing required fields (P.No, Mobile No, or Name)")
      errs in
  let errs :=
    push_when (bool_decide (get row "P.No" ∈ seenP))
      (rowLabel index +:+ "Duplicate P.No '"
         +:+ ToString (get row "P.No") +:+ "'")
      errs in
  let errs :=
    push_when (bool_decide (get row "Mobile No" ∈ seenM))
      (rowLabel index +:+ "Duplicate Mobile No '"
         +:+ ToString (get row "Mobile No") +:+ "'")
      errs in
  let day1 := normalizeAttendance (get row "Attendance Day 1") in
  let day2 := normalizeAttendance (get row "Attendance Day 2") in
  let errs :=
    push_when (negb (validAttendance day1))
      (rowLabel index
         +:+ "Invalid value for Attendance Day 1 (expected P or A, got "
         +:+ ToString (get row "Attendance Day 1") +:+ ")")
      errs in
  let errs :=
    push_when (negb (validAttendance day2))
      (rowLabel index
         +:+ "Invalid value for Attendance Day 2 (expected P or A, got "
         +:+ ToString (get row "Attendance Day 2") +:+ ")")
      errs in
  errs.

(** The body of [jsonData.forEach((row, index) => ...)] of the validation
    pass. *)
Definition validateRow (v : Validation) (row : Row) (index : nat)
    : Validation :=
  {| validationErrors :=
       validationErrors v ++ rowErrors (seenPNo v) (seenMobileNo v) index row;
     seenPNo := add_when (truthy (get row "P.No")) (get row "P.No") (seenPNo v);
     seenMobileNo :=
       add_when (truthy (get row "Mobile No")) (get row "Mobile No")
                (seenMobileNo v) |}.

Definition validate (jsonData : list Row) : Validation :=
  forEach validateRow jsonData
    {| validationErrors := []; seenPNo := ∅; seenMobileNo := ∅ |}.

(** [participants.forEach(p => { duplicateCheck.set(p.p_no, p);
    duplicateCheck.set(p.mobile_no, p); })] *)
Definition indexParticipant (dc : gmap JSValue Participant) (p : Participant)
    : gmap JSValue Participant :=
  <[ JString (mobile_no p) := p ]> (<[ JString (p_no p) := p ]> dc).

Definition buildDuplicateCheck (ps : list Participant)
    : gmap JSValue Participant :=
  foldl indexParticipant ∅ ps.

(** [duplicateCheck.has(k)] *)
Definition has (dc : gmap JSValue Participant) (k : JSValue) : bool :=
  bool_decide (is_Some (dc !! k)).

(** State of the insertion loop. *)
Record Insertion := mkInsertion {
  duplicateCheck : gmap JSValue Participant;
  insertCount : Z;
  newParticipants : list Participant
}.

Definition isDuplicate (dc : gmap JSValue Participant) (row : Row) : bool :=
  has dc (get row "P.No") || has dc (get row "Mobile No").

Definition newParticipant (row : Row) (stamp : string) : Participant :=
  {| p_no := ToString (get row "P.No");
     mobile_no := ToString (get row "Mobile No");
     name := ToString (get row "Name");
     trade := ToString (or_else (get row "Trade") (JString ""));
     gender := ToString (or_else (get row "Gender") (JString ""));
     attendance_day1 := toUpperCase (ToString (get row "Attendance Day 1"));
     attendance_day2 := toUpperCase (ToString (get row "Attendance Day 2"));
     created_at := stamp |}.

(** The body of [jsonData.forEach(row => ...)] of the insertion pass. *)
Definition insertRow (now : Z → string) (st : Insertion) (row : Row)
    : Insertion :=
  if isDuplicate (duplicateCheck st) row then st
  else
    let p := newParticipant row (now (insertCount st)) in
    {| duplicateCheck := indexParticipant (duplicateCheck st) p;
       insertCount := insertCount st + 1;
       newParticipants := newParticipants st ++ [p] |}.

Definition insertRows (now : Z → string) (ps : list Participant)
    (jsonData : list Row) : Insertion :=
  foldl (insertRow now)
    {| duplicateCheck := buildDuplicateCheck ps;
       insertCount := 0;
       newParticipants := [] |}
    jsonData.

(** The handler, from the parsed sheet [jsonData] on. *)
Definition upload (now : Z → string) (jsonData : list Row) (st : ServerState)
    : Response * ServerState :=
  let missing := missingColumns jsonData in
  if (0 <? Z.of_nat (length missing)) then
    ({| status := 400;
        body := BMissingColumns
                  ("Missing required columns: " +:+ join ", " missing)
                  missing |}, st)
  else
    let errs := validationErrors (validate jsonData) in
    if (0 <? Z.of_nat (length errs)) then
      ({| status := 400; body := BValidation "Validation failed" errs |}, st)
    else
      let ins := insertRows now (participants st) jsonData in
      let st' :=
        saveDataToFile
          {| participants := participants st ++ newParticipants ins;
             file_writes := file_writes st |} in
      ({| status := 200;
          body := BUpload
                    ("Successfully processed "
                       +:+ pretty (Z.of_nat (length jsonData)) +:+ " records")
                    (insertCount ins)
                    (Z.of_nat (length jsonData) - insertCount ins) |}, st').

(** ** GET /api/participants *)

Record Query := mkQuery {
  q_p_no : option string;
  q_mobile_no : option string;
  q_name : option string;
  q_trade : option string;
  q_gender : option string;
  q_page : option Z;
  q_limit : option Z
}.

(** [if (param)] on an optional query string: present and not empty. *)
Definition supplied (param : option string) : bool :=
  match param with
  | Some s => negb (bool_decide (s = ""))
  | None => false
  end.

(** [if (param) { list = list.filter(pred(param)) }] *)
Definition filter_when (param : option string)
    (pred : string → Participant → bool) (ps : list Participant)
    : list Participant :=
  if supplied param then filter (λ p, pred (default "" param) p) ps else ps.

Definition filteredParticipants (q : Query) (ps : list Participant)
    : list Participant :=
  let fp := ps in
  let fp := filter_when (q_p_no q)
              (λ f p, includes (toLowerCase (p_no p)) (toLowerCase f)) fp in
  let fp := filter_when (q_mobile_no q)
              (λ f p, includes (mobile_no p) f) fp in
  let fp := filter_when (q_name q)
              (λ f p, includes (toLowerCase (name p)) (toLowerCase f)) fp in
  let fp := filter_when (q_trade q)
              (λ f p, bool_decide (trade p = f)) fp in
  let fp := filter_when (q_gender q)
              (λ f p, bool_decide (gender p = f)) fp in
  fp.

(** [const { ..., page = 1, limit = 10 } = req.query] *)
Definition pageParam (q : Query) : Z := default 1 (q_page q).
Definition limitParam (q : Query) : Z := default 10 (q_limit q).

Definition search (q : Query) (st : ServerState) : Response :=
  let page := pageParam q in
  let limit := limitParam q in
  let fp := filteredParticipants q (participants st) in
  let total := Z.of_nat (length fp) in
  let totalPages := Math_ceil_div total limit in
  let currentPage := page in
  let startIndex := (currentPage - 1) * limit in
  let endIndex := Z.min (startIndex + limit) total in
  let paginatedResults := slice fp startIndex endIndex in
  {| status := 200;
     body := BSearch paginatedResults
               {| total := total;
                  page := currentPage;
                  totalPages := totalPages;
                  limit := limit;
                  hasNext := currentPage <? totalPages;
                  hasPrev := 1 <? currentPage |} |}.

(** ** GET /api/participants/:p_no *)

Definition participantDetail (param : string) (st : ServerState) : Response :=
  match List.find (λ p, bool_decide (p_no p = param)) (participants st) with
  | None => {| status := 404; body := BError "Participant not found" |}
  | Some participant => {| status := 200; body := BParticipant participant |}
  end.

End Server.

Import Server.

(* ================================================================== *)
(** * Vocabulary of the specification *)

Module Spec.

(** The elements of [l] at the indices [a <= j < b], in order. *)
Definition range {A} (a b : nat) (l : list A) : list A :=
  take (b - a) (drop a l).

(** [needle] occurs in [s] as a contiguous substring. *)
Definition occurs (needle s : string) : Prop :=
  ∃ pre post, s = pre +:+ needle +:+ post.

(** Two characters that are the same letter up to case. *)
Definition same_char_ignoring_case (a b : ascii) : Prop :=
  let na := N_of_ascii a in
  let nb := N_of_ascii b in
  a = b
  ∨ ((65 ≤ na ≤ 90)%N ∧ nb = (na + 32)%N)
  ∨ ((65 ≤ nb ≤ 90)%N ∧ na = (nb + 32)%N).

Inductive same_ignoring_case : string → string → Prop :=
| sic_empty : same_ignoring_case "" ""
| sic_cons a b s t :
    same_char_ignoring_case a b → same_ignoring_case s t →
    same_ignoring_case (String a s) (String b t).

(** [needle] occurs in [s] up to the case of letters. *)
Definition occurs_ignoring_case (needle s : string) : Prop :=
  ∃ pre mid post, s = pre +:+ mid +:+ post ∧ same_ignoring_case mid needle.

(** The filter [param] is supplied, with the text [f]. *)
Definition suppliedAs (param : option string) (f : string) : Prop :=
  param = Some f ∧ f ≠ "".

(** The record passes every supplied filter of the query. *)
Definition satisfies (q : Query) (p : Participant) : Prop :=
  (∀ f, suppliedAs (q_p_no q) f → occurs_ignoring_case f (p_no p))
  ∧ (∀ f, suppliedAs (q_mobile_no q) f → occurs f (mobile_no p))
  ∧ (∀ f, suppliedAs (q_name q) f → occurs_ignoring_case f (name p))
  ∧ (∀ f, suppliedAs (q_trade q) f → trade p = f)
  ∧ (∀ f, suppliedAs (q_gender q) f → gender p = f).

(** The state the validation loop has reached when it gets to the row of
    index [i]. *)
Definition validationBefore (jsonData : list Row) (i : nat) : Validation :=
  validate (take i jsonData).

(** The row errors the validator records for the row of index [i]. *)
Definition errorsOfRow (jsonData : list Row) (i : nat) (row : Row)
    : list string :=
  rowErrors (seenPNo (validationBefore jsonData i))
            (seenMobileNo (validationBefore jsonData i)) i row.

(** A cell that is absent or holds the empty string. *)
Definition emptyOrMissing (v : JSValue) : Prop :=
  v = JUndefined ∨ v = JString "".

(** A cell that JavaScript takes for false: absent, the empty string, the
    number 0 or the boolean false. *)
Definition falsy (v : JSValue) : Prop :=
  v = JUndefined ∨ v = JString "" ∨ v = JNumber 0 ∨ v = JBool false.

(** The value of column [col] in [row] is held by an earlier row too. *)
Definition repeatsEarlier (col : string) (jsonData : list Row) (i : nat)
    (row : Row) : Prop :=
  ∃ j earlier, (j < i)%nat ∧ jsonData !! j = Some earlier
               ∧ get earlier col = get row col.

(** After uppercasing and trimming, the cell is not exactly P or A. *)
Definition badAttendance (v : JSValue) : Prop :=
  trim (toUpperCase (ToString v)) ≠ "P" ∧ trim (toUpperCase (ToString v)) ≠ "A".

(** The row of index [i] has a required cell that is blank, repeats the
    (non-blank) P.No or Mobile No of an earlier row, or has a bad attendance
    cell; [blank] is the notion of an empty cell. *)
Definition rowRejected (blank : JSValue → Prop) (jsonData : list Row)
    (i : nat) (row : Row) : Prop :=
  blank (get row "P.No") ∨ blank (get row "Mobile No") ∨ blank (get row "Name")
  ∨ (¬ blank (get row "P.No") ∧ repeatsEarlier "P.No" jsonData i row)
  ∨ (¬ blank (get row "Mobile No") ∧ repeatsEarlier "Mobile No" jsonData i row)
  ∨ badAttendance (get row "Attendance Day 1")
  ∨ badAttendance (get row "Attendance Day 2").

(** The batch has all the required columns and no row error. *)
Definition passesValidation (jsonData : list Row) : Prop :=
  missingColumns jsonData = [] ∧ validationErrors (validate jsonData) = [].

(** The state the insertion loop has reached when it gets to the row of
    index [i]. *)
Definition insertionBefore (now : Z → string) (ps : list Participant)
    (jsonData : list Row) (i : nat) : Insertion :=
  insertRows now ps (take i jsonData).

(** The test of the insertion loop on the row of index [i]. *)
Definition skips (now : Z → string) (ps : list Participant)
    (jsonData : list Row) (i : nat) (row : Row) : bool :=
  isDuplicate (duplicateCheck (insertionBefore now ps jsonData i)) row.

(** The insertion loop skips the row of index [i]. *)
Definition skipped (now : Z → string) (ps : list Participant)
    (jsonData : list Row) (i : nat) (row : Row) : Prop :=
  skips now ps jsonData i row = true.

(** The rows the insertion loop keeps, and those it skips, in row order. *)
Definition keptRows (now : Z → string) (ps : list Participant)
    (jsonData : list Row) : list Row :=
  concat (imap (λ i row, if skips now ps jsonData i row then [] else [row])
               jsonData).

Definition skippedRows (now : Z → string) (ps : list Participant)
    (jsonData : list Row) : list Row :=
  concat (imap (λ i row, if skips now ps jsonData i row then [row] else [])
               jsonData).

(** [k] is one of the two keys under which the record [p] is entered in
    the map [duplicateCheck]. *)
Definition keyOf (k : JSValue) (p : Participant) : Prop :=
  k = JString (p_no p) ∨ k = JString (mobile_no p).

(** The two keys of a stored record, and the two keys of a row as text. *)
Definition keysOf (p : Participant) : list string := [p_no p; mobile_no p].

Definition rowKeys (row : Row) : list string :=
  [ToString (get row "P.No"); ToString (get row "Mobile No")].

(** The P.No and Mobile No cells of the row are strings. *)
Definition textKeys (row : Row) : Prop :=
  ∃ a b, get row "P.No" = JString a ∧ get row "Mobile No" = JString b.

(** A key of the row is a key of a record of the store. *)
Definition matchesStore (ps : list Participant) (row : Row) : Prop :=
  ∃ p key, p ∈ ps ∧ key ∈ keysOf p ∧ key ∈ rowKeys row.

(** A key of the row is a key of an earlier row of the batch that the
    insertion loop kept. *)
Definition matchesKeptRow (now : Z → string) (ps : list Participant)
    (jsonData : list Row) (i : nat) (row : Row) : Prop :=
  ∃ j earlier key,
    (j < i)%nat ∧ jsonData !! j = Some earlier
    ∧ ¬ skipped now ps jsonData j earlier
    ∧ key ∈ rowKeys earlier ∧ key ∈ rowKeys row.

End Spec.

Import Spec.

(* ================================================================== *)
(** * Sample data *)

Module Sample.

Definition mkRow (p m n t g d1 d2 : JSValue) : Row :=
  list_to_map
    [("P.No", p); ("Mobile No", m); ("Name", n); ("Trade", t); ("Gender", g);
     ("Attendance Day 1", d1); ("Attendance Day 2", d2)].

Definition clock (n : Z) : string := "2024-01-01T00:00:0" +:+ pretty n +:+ "Z".

Definition emptyServer : ServerState :=
  {| participants := []; file_writes := [] |}.

Definition person (n : nat) : Participant :=
  {| p_no := "P" +:+ pretty n;
     mobile_no := "98" +:+ pretty n;
     name := "Name" +:+ pretty n;
     trade := "Welding";
     gender := "F";
     attendance_day1 := "P";
     attendance_day2 := "A";
     created_at := "2024-01-01T00:00:00Z" |}.

(** A store of 25 records. *)
Definition server25 : ServerState :=
  {| participants := person <$> seq 0 25; file_writes := [] |}.

(** Rows of an uploaded sheet. *)
Definition rowAnn : Row :=
  mkRow (JString "101") (JString "9000000001") (JString "Ann")
        (JString "Welding") (JString "F") (JString "P") (JString "A").

Definition rowBob : Row :=
  mkRow (JString "102") (JString "9000000002") (JString "Bob")
        (JString "Plumbing") (JString "M") (JString "a") (JString "p").

(** A row whose P.No cell is the number 0. *)
Definition rowZero : Row :=
  mkRow (JNumber 0) (JString "9000000003") (JString "Cy")
        (JString "Welding") (JString "M") (JString "P") (JString "A").

(** A row whose first attendance cell is padded with blanks. *)
Definition rowPadded : Row :=
  mkRow (JString "104") (JString "9000000004") (JString "Dee")
        (JString "Welding") (JString "F") (JString " p ") (JString "A").

(** A row with an attendance cell that is neither P nor A. *)
Definition rowLate : Row :=
  mkRow (JString "105") (JString "9000000005") (JString "Eve")
        (JString "Welding") (JString "F") (JString "late") (JString "A").

(** Two rows where the P.No of the second is the Mobile No of the first. *)
Definition rowFirst : Row :=
  mkRow (JString "7001") (JString "7002") (JString "Fay")
        (JString "Welding") (JString "F") (JString "P") (JString "P").

Definition rowSecond : Row :=
  mkRow (JString "7002") (JString "7003") (JString "Gus")
        (JString "Welding") (JString "M") (JString "A") (JString "A").

(** A row whose P.No is the Mobile No of [person 0]. *)
Definition rowCross : Row :=
  mkRow (JString "980") (JString "5550001") (JString "Hal")
        (JString "Welding") (JString "M") (JString "P") (JString "P").

(** A store of one record. *)
Definition server1 : ServerState :=
  {| participants := [person 0]; file_writes := [] |}.

(** A row whose key cells are numbers, as a sheet with numeric cells
    gives them. *)
Definition rowNumeric : Row :=
  mkRow (JNumber 201) (JNumber 9000000201) (JString "Ida")
        (JString "Welding") (JString "F") (JString "P") (JString "A").



Definition noFilter (pg lim : option Z) : Query :=
  {| q_p_no := None; q_mobile_no := None; q_name := None; q_trade := None;
     q_gender := None; q_page := pg; q_limit := lim |}.

(** A record of another trade and gender, and a store where the first
    trade comes back after the second. *)
Definition plumber (n : nat) : Participant :=
  {| p_no := "Q" +:+ pretty n;
     mobile_no := "97" +:+ pretty n;
     name := "Name" +:+ pretty n;
     trade := "Plumbing";
     gender := "M";
     attendance_day1 := "A";
     attendance_day2 := "P";
     created_at := "2024-01-01T00:00:00Z" |}.

Definition serverMixed : ServerState :=
  {| participants := [person 0; plumber 1; person 2]; file_writes := [] |}.

End Sample.

(* ================================================================== *)
(** * The lookup lists of the server *)

Module Lists.

(** [set.add(x)] on a [Set] of strings, kept in insertion order. *)
Definition Set_add (s : list string) (x : string) : list string :=
  if bool_decide (x ∈ s) then s else s ++ [x].

(** [[...new Set(arr)]] *)
Definition Set_spread (arr : list string) : list string :=
  foldl Set_add [] arr.

(** The test of [filter(t => t)] on a string. *)
Definition nonEmpty (t : string) : bool := negb (bool_decide (t = "")).

(** GET /api/trades: the JSON array sent with status 200. *)
Definition trades (st : ServerState) : list string :=
  Set_spread (filter (λ t, nonEmpty t) (trade <$> participants st)).

(** GET /api/genders: the JSON array sent with status 200. *)
Definition genders (st : ServerState) : list string :=
  Set_spread (filter (λ g, nonEmpty g) (gender <$> participants st)).

End Lists.

Import Lists.

(* ================================================================== *)
(** * The page script *)

Module Page.

(** [response.ok] *)
Definition ok (r : Response) : bool := (200 <=? status r) && (status r <=? 299).

(** The properties of the parsed body that [uploadExcelFile] reads. *)
Definition result_message (b : Body) : JSValue :=
  match b with
  | BUpload message _ _ => JString message
  | _ => JUndefined
  end.

Definition result_insertedRecords (b : Body) : JSValue :=
  match b with
  | BUpload _ insertedRecords _ => JNumber insertedRecords
  | _ => JUndefined
  end.

Definition result_duplicatesSkipped (b : Body) : JSValue :=
  match b with
  | BUpload _ _ duplicatesSkipped => JNumber duplicatesSkipped
  | _ => JUndefined
  end.

Definition result_error (b : Body) : JSValue :=
  match b with
  | BError error | BMissingColumns error _ | BValidation error _ =>
      JString error
  | _ => JUndefined
  end.

Definition result_validationErrors (b : Body) : option (list string) :=
  match b with
  | BValidation _ validationErrors => Some validationErrors
  | _ => None
  end.

(** The message and the type that [uploadExcelFile] hands to
    [showUploadStatus] once the response has come. *)
Definition uploadStatus (r : Response) : string * string :=
  if ok r then
    (ToString (result_message (body r)) +:+ ". "
       +:+ ToString (result_insertedRecords (body r)) +:+ " records inserted, "
       +:+ ToString (result_duplicatesSkipped (body r))
       +:+ " duplicates skipped.",
     "success")
  else
    let errorMessage :=
      ToString (or_else (result_error (body r)) (JString "Upload failed")) in
    let errorMessage :=
      match result_validationErrors (body r) with
      | Some validationErrors =>
          errorMessage +:+ ": " +:+ join "; " validationErrors
      | None => errorMessage
      end in
    (errorMessage, "error").

(** [updatePaginationControls]: the [disabled] flags of the two buttons,
    from the page and the number of pages of the last response. *)
Definition prevDisabled (currentPage totalPages : Z) : bool :=
  bool_decide (currentPage = 1).

Definition nextDisabled (currentPage totalPages : Z) : bool :=
  bool_decide (currentPage = totalPages) || bool_decide (totalPages = 0).

(** [goToPage(page)]: the page the script asks the server for, if the
    guard lets the call through. *)
Definition goToPage (totalPages page : Z) : option Z :=
  if (1 <=? page) && (page <=? totalPages) then Some page else None.

(** [day1Class] and [day2Class] of [renderResults]. *)
Definition attendanceClass (attendance : string) : string :=
  if bool_decide (attendance = "P") then "attendance-present"
  else "attendance-absent".

End Page.

(* ================================================================== *)
(** * Views of a request *)

Module View.

(** The query [q] asked for page [pg]. *)
Definition withPage (q : Query) (pg : Z) : Query :=
  {| q_p_no := q_p_no q; q_mobile_no := q_mobile_no q; q_name := q_name q;
     q_trade := q_trade q; q_gender := q_gender q;
     q_page := Some pg; q_limit := q_limit q |}.

(** The query [q] with the p_no filter, or the name filter, set to [f]. *)
Definition withPNo (q : Query) (f : string) : Query :=
  {| q_p_no := Some f; q_mobile_no := q_mobile_no q; q_name := q_name q;
     q_trade := q_trade q; q_gender := q_gender q;
     q_page := q_page q; q_limit := q_limit q |}.

Definition withName (q : Query) (f : string) : Query :=
  {| q_p_no := q_p_no q; q_mobile_no := q_mobile_no q; q_name := Some f;
     q_trade := q_trade q; q_gender := q_gender q;
     q_page := q_page q; q_limit := q_limit q |}.

(** The pagination block of a search response. *)
Definition paginationOf (r : Response) : option Pagination :=
  match body r with
  | BSearch _ pagination => Some pagination
  | _ => None
  end.

(** The records of a search response. *)
Definition found (r : Response) : list Participant :=
  match body r with
  | BSearch records _ => records
  | _ => []
  end.

(** The number of pages the search reports for [q]. *)
Definition pagesOf (q : Query) (st : ServerState) : Z :=
  Math_ceil_div (Z.of_nat (length (filteredParticipants q (participants st))))
                (limitParam q).

(** The cell is not a string. *)
Definition notText (v : JSValue) : Prop := ∀ s, v ≠ JString s.

(** What the validator has checked of a row that it lets through. *)
Definition wellFormedRow (row : Row) : Prop :=
  ¬ falsy (get row "P.No") ∧ ¬ falsy (get row "Mobile No")
  ∧ ¬ falsy (get row "Name")
  ∧ ¬ badAttendance (get row "Attendance Day 1")
  ∧ ¬ badAttendance (get row "Attendance Day 2").

(** What every record of the store is meant to satisfy: the three
    required fields are not empty and the two attendances are P or A, up to
    surrounding white space. *)
Definition wellFormedRecord (p : Participant) : Prop :=
  p_no p ≠ "" ∧ mobile_no p ≠ "" ∧ name p ≠ ""
  ∧ trim (attendance_day1 p) ∈ ["P"; "A"]
  ∧ trim (attendance_day2 p) ∈ ["P"; "A"].

(** The texts of the two filters that are compared up to case are
    ASCII, and so are the two fields of a record they are compared with. *)
Definition asciiFilters (q : Query) : Prop :=
  (∀ f, q_p_no q = Some f → asciiText f = true)
  ∧ (∀ f, q_name q = Some f → asciiText f = true).

Definition asciiRecord (p : Participant) : Prop :=
  asciiText (p_no p) = true ∧ asciiText (name p) = true.

End View.

Import View.

(* ================================================================== *)
(** * Properties *)

(** ** Arithmetic of pages *)

Section Paging.

Lemma Math_ceil_div_bounds (a b : Z) :
  0 < b → (Math_ceil_div a b - 1) * b < a ≤ Math_ceil_div a b * b.
Proof.
  intros Hb. unfold Math_ceil_div.
  pose proof (Z.div_mod (- a) b ltac:(lia)) as Hdiv.
  pose proof (Z.mod_pos_bound (- a) b Hb) as Hmod.
  nia.
Qed.

Lemma Math_ceil_div_zero (b : Z) : Math_ceil_div 0 b = 0.
Proof. unfold Math_ceil_div. simpl. by rewrite Zdiv_0_l. Qed.

Lemma Math_ceil_div_unique (a b q : Z) :
  0 < b → (q - 1) * b < a ≤ q * b → Math_ceil_div a b = q.
Proof.
  intros Hb Hq. pose proof (Math_ceil_div_bounds a b Hb) as Hc. nia.
Qed.

Lemma Z_ltb_decide (a b : Z) : (a <? b) = bool_decide (a < b).
Proof.
  destruct (Z.ltb_spec a b).
  - by rewrite bool_decide_true.
  - rewrite bool_decide_false; [done|lia].
Qed.

Context {A : Type}.
Implicit Types l : list A.

(** From a start index that is not negative, [slice] is the range of the
    list between the two indices, cut at the end of the list. *)
Lemma slice_nonneg l (start end_ : Z) :
  0 ≤ start → 0 ≤ end_ →
  slice l start end_ =
    range (Z.to_nat start) (Z.to_nat (Z.min end_ (Z.of_nat (length l)))) l.
Proof.
  intros Hs He. unfold slice, range.
  rewrite (proj2 (Z.ltb_ge start 0)) by lia.
  rewrite (proj2 (Z.ltb_ge end_ 0)) by lia.
  destruct (decide (start ≤ Z.of_nat (length l))) as [Hle|Hgt].
  - rewrite (Z.min_l start) by lia. f_equal. lia.
  - rewrite !drop_ge by lia. by rewrite !take_nil.
Qed.

(** With both indices negative, [slice] counts them from the end. *)
Lemma slice_negative l (start end_ : Z) :
  start < 0 → end_ < 0 →
  slice l start end_ =
    range (Z.to_nat (Z.of_nat (length l) + start))
          (Z.to_nat (Z.of_nat (length l) + end_)) l.
Proof.
  intros Hs He. unfold slice, range.
  rewrite (proj2 (Z.ltb_lt start 0)) by lia.
  rewrite (proj2 (Z.ltb_lt end_ 0)) by lia.
  f_equal; [lia|]. f_equal. lia.
Qed.

Lemma range_length (a b : nat) l :
  (b ≤ length l)%nat → length (range a b l) = (b - a)%nat.
Proof. intros Hb. unfold range. rewrite length_take, length_drop. lia. Qed.

Lemma range_lookup (a b j : nat) l :
  (a + j < b)%nat → range a b l !! j = l !! (a + j)%nat.
Proof.
  intros Hj. unfold range. rewrite lookup_take_lt by lia. by rewrite lookup_drop.
Qed.

Lemma range_empty (a b : nat) l :
  (b ≤ a)%nat ∨ (length l ≤ a)%nat → range a b l = [].
Proof.
  intros [Hba|Hla]; unfold range.
  - replace (b - a)%nat with 0%nat by lia. done.
  - rewrite drop_ge by lia. by rewrite take_nil.
Qed.

End Paging.

(** ** GET /api/participants: pagination *)

Section Pagination.

Variables (q : Query) (st : ServerState).

Let fp := filteredParticipants q (participants st).
Let n := Z.of_nat (length fp).
Let pg := pageParam q.
Let lim := limitParam q.

Lemma search_unfold :
  search q st =
    {| status := 200;
       body := BSearch (slice fp ((pg - 1) * lim) (Z.min ((pg - 1) * lim + lim) n))
                 {| total := n; page := pg; totalPages := Math_ceil_div n lim;
                    limit := lim; hasNext := pg <? Math_ceil_div n lim;
                    hasPrev := 1 <? pg |} |}.
Proof. reflexivity. Qed.

(** The records of a page from 1 on. *)
Lemma search_slice_positive :
  1 ≤ pg → 1 ≤ lim →
  slice fp ((pg - 1) * lim) (Z.min ((pg - 1) * lim + lim) n)
  = range (Z.to_nat ((pg - 1) * lim)) (Z.to_nat (Z.min (pg * lim) n)) fp.
Proof.
  intros Hpg Hlim. rewrite slice_nonneg by (subst n; nia).
  fold n. do 2 f_equal. lia.
Qed.

(** Page 0 and the pages after the last one are empty. *)
Lemma search_slice_outside :
  1 ≤ lim → pg = 0 ∨ Math_ceil_div n lim < pg →
  slice fp ((pg - 1) * lim) (Z.min ((pg - 1) * lim + lim) n) = [].
Proof.
  intros Hlim [Hz|Hbig].
  - rewrite Hz. unfold slice.
    replace (Z.min ((0 - 1) * lim + lim) n) with 0 by (subst n; lia).
    rewrite (proj2 (Z.ltb_lt ((0 - 1) * lim) 0)) by lia. simpl.
    rewrite Z.min_l by lia.
    replace (Z.to_nat (0 - _)) with 0%nat by lia. done.
  - pose proof (Math_ceil_div_bounds n lim ltac:(lia)) as Hc.
    assert (0 ≤ Math_ceil_div n lim) by (subst n; nia).
    rewrite slice_nonneg by (subst n; nia).
    apply range_empty. right. fold n. nia.
Qed.

(** A negative page selects records counted from the end of the list. *)
Lemma search_slice_negative :
  1 ≤ lim → pg < 0 →
  slice fp ((pg - 1) * lim) (Z.min ((pg - 1) * lim + lim) n)
  = range (Z.to_nat (n + (pg - 1) * lim)) (Z.to_nat (n + pg * lim)) fp.
Proof.
  intros Hlim Hpg.
  replace (Z.min ((pg - 1) * lim + lim) n) with (pg * lim) by (subst n; nia).
  rewrite slice_negative by nia. fold n. done.
Qed.

End Pagination.

Lemma search_page_by_params (q : Query) (st : ServerState) :
  1 ≤ pageParam q → 1 ≤ limitParam q →
  ∃ tp : Z,
    search q st =
      {| status := 200;
         body :=
           BSearch
             (range (Z.to_nat ((pageParam q - 1) * limitParam q))
                    (Z.to_nat (Z.min (pageParam q * limitParam q)
                       (Z.of_nat (length (filteredParticipants q (participants st))))))
                    (filteredParticipants q (participants st)))
             {| total := Z.of_nat (length (filteredParticipants q (participants st)));
                page := pageParam q;
                totalPages := tp;
                limit := limitParam q;
                hasNext := bool_decide (pageParam q < tp);
                hasPrev := bool_decide (1 < pageParam q) |} |}
    ∧ (tp - 1) * limitParam q
        < Z.of_nat (length (filteredParticipants q (participants st)))
        ≤ tp * limitParam q
    ∧ (length (filteredParticipants q (participants st)) = 0%nat → tp = 0)
    ∧ (length (filteredParticipants q (participants st)) = 25%nat →
       limitParam q = 10 →
       tp = 3
       ∧ (pageParam q = 3 →
          search q st =
            {| status := 200;
               body :=
                 BSearch (drop 20 (filteredParticipants q (participants st)))
                   {| total := 25; page := 3; totalPages := 3; limit := 10;
                      hasNext := false; hasPrev := true |} |}
          ∧ length (drop 20 (filteredParticipants q (participants st))) = 5%nat)).
Proof.
  intros Hpg Hlim.
  set (fp := filteredParticipants q (participants st)).
  pose proof (Math_ceil_div_bounds (Z.of_nat (length fp)) (limitParam q)
                ltac:(lia)) as Hceil.
  exists (Math_ceil_div (Z.of_nat (length fp)) (limitParam q)).
  assert (Hresp :
    search q st =
      {| status := 200;
         body :=
           BSearch
             (range (Z.to_nat ((pageParam q - 1) * limitParam q))
                (Z.to_nat (Z.min (pageParam q * limitParam q)
                             (Z.of_nat (length fp)))) fp)
             {| total := Z.of_nat (length fp); page := pageParam q;
                totalPages := Math_ceil_div (Z.of_nat (length fp)) (limitParam q);
                limit := limitParam q;
                hasNext := bool_decide
                  (pageParam q < Math_ceil_div (Z.of_nat (length fp)) (limitParam q));
                hasPrev := bool_decide (1 < pageParam q) |} |}).
  { unfold fp. rewrite search_unfold.
    rewrite (search_slice_positive q st Hpg Hlim).
    by rewrite !Z_ltb_decide. }
  split; [exact Hresp|]. split; [exact Hceil|]. split.
  - intros Hz. rewrite Hz. apply Math_ceil_div_zero.
  - intros H25 H10.
    assert (Htp : Math_ceil_div (Z.of_nat (length fp)) (limitParam q) = 3).
    { apply Math_ceil_div_unique; lia. }
    split; [exact Htp|]. intros H3. split.
    + rewrite Hresp, Htp, H25, H10, H3. unfold range. simpl.
      rewrite take_ge; [done|]. rewrite length_drop. lia.
    + rewrite length_drop. lia.
Qed.

(** C6. For a page P from 1 on and a limit L from 1 on, both given in the
    query, the search response reports [total] = the number of filtered
    records, [page] = P, [limit] = L, [totalPages] = the ceiling of
    [total / L] (0 when [total] is 0), [hasNext] = (P < totalPages),
    [hasPrev] = (P > 1), and returns the filtered records from index
    [(P-1)*L] up to [min (P*L) total], in store order.  In particular 25
    records with limit 10 make 3 pages, and page 3 holds the 5 records from
    index 20 on, with no next page and a previous one. *)
Theorem search_pagination (q : Query) (st : ServerState) (P L : Z) :
  q_page q = Some P → q_limit q = Some L → 1 ≤ P → 1 ≤ L →
  ∃ tp : Z,
    search q st =
      {| status := 200;
         body :=
           BSearch
             (range (Z.to_nat ((P - 1) * L))
                    (Z.to_nat (Z.min (P * L)
                       (Z.of_nat (length (filteredParticipants q (participants st))))))
                    (filteredParticipants q (participants st)))
             {| total := Z.of_nat (length (filteredParticipants q (participants st)));
                page := P;
                totalPages := tp;
                limit := L;
                hasNext := bool_decide (P < tp);
                hasPrev := bool_decide (1 < P) |} |}
    ∧ (tp - 1) * L
        < Z.of_nat (length (filteredParticipants q (participants st)))
        ≤ tp * L
    ∧ (length (filteredParticipants q (participants st)) = 0%nat → tp = 0)
    ∧ (length (filteredParticipants q (participants st)) = 25%nat →
       L = 10 →
       tp = 3
       ∧ (P = 3 →
          search q st =
            {| status := 200;
               body :=
                 BSearch (drop 20 (filteredParticipants q (participants st)))
                   {| total := 25; page := 3; totalPages := 3; limit := 10;
                      hasNext := false; hasPrev := true |} |}
          ∧ length (drop 20 (filteredParticipants q (participants st))) = 5%nat)).
Proof.
  intros HP HL Hpg Hlim.
  assert (HpP : pageParam q = P) by (unfold pageParam; by rewrite HP).
  assert (HlL : limitParam q = L) by (unfold limitParam; by rewrite HL).
  clear HP HL. subst P L.
  exact (search_page_by_params q st Hpg Hlim).
Qed.

Lemma search_pagination_witness :
  q_page (Sample.noFilter (Some 4) (Some 7)) = Some 4
  ∧ q_limit (Sample.noFilter (Some 4) (Some 7)) = Some 7
  ∧ 1 ≤ 4 ∧ 1 ≤ 7
  ∧ search (Sample.noFilter (Some 4) (Some 7)) Sample.server25 =
      {| status := 200;
         body :=
           BSearch (Sample.person <$> seq 21 4)
             {| total := 25; page := 4; totalPages := 4; limit := 7;
                hasNext := false; hasPrev := true |} |}.
Proof.
  split; [reflexivity|]. split; [reflexivity|].
  split; [lia|]. split; [lia|].
  destruct (search_pagination (Sample.noFilter (Some 4) (Some 7))
              Sample.server25 4 7 eq_refl eq_refl ltac:(lia) ltac:(lia))
    as (tp & Hresp & Hbounds & _).
  assert (Hn : Z.of_nat (length (filteredParticipants
                                   (Sample.noFilter (Some 4) (Some 7))
                                   (participants Sample.server25))) = 25)
    by (vm_compute; reflexivity).
  rewrite Hn in Hbounds. assert (tp = 4) as -> by lia.
  rewrite Hresp. vm_compute. reflexivity.
Defined.

(** Without [page] the search is that for page 1, and without [limit] that
    for limit 10. *)
Lemma search_defaults (q : Query) (st : ServerState) :
  search q st
  = search {| q_p_no := q_p_no q; q_mobile_no := q_mobile_no q;
              q_name := q_name q; q_trade := q_trade q;
              q_gender := q_gender q;
              q_page := Some (default 1 (q_page q));
              q_limit := Some (default 10 (q_limit q)) |} st.
Proof. reflexivity. Qed.

(** C7, at page -1.  With 25 records and limit 10, the search for page -1,
    which lies outside [1, totalPages], answers with the ten records of
    indices 5 to 14 and not with an empty list. *)
Theorem search_negative_page_not_empty :
  search (Sample.noFilter (Some (-1)) (Some 10)) Sample.server25 =
    {| status := 200;
       body :=
         BSearch (Sample.person <$> seq 5 10)
           {| total := 25; page := -1; totalPages := 3; limit := 10;
              hasNext := true; hasPrev := false |} |}.
Proof. vm_compute. reflexivity. Qed.

(** What does hold outside [1, totalPages]: page 0 and every page after the
    last one come back empty, with status 200. *)
Lemma search_page_outside_empty (q : Query) (st : ServerState) :
  1 ≤ limitParam q →
  pageParam q = 0
  ∨ Math_ceil_div (Z.of_nat (length (filteredParticipants q (participants st))))
      (limitParam q) < pageParam q →
  ∃ pagination,
    search q st = {| status := 200; body := BSearch [] pagination |}.
Proof.
  intros Hlim Hout. rewrite search_unfold.
  rewrite (search_slice_outside q st Hlim Hout). by eexists.
Qed.

(** A negative page is answered with records whenever the list is longer
    than [|page| * limit]: the two indices of [slice] are then negative and
    count from the end of the list. *)
Lemma search_negative_page_records (q : Query) (st : ServerState) :
  1 ≤ limitParam q → pageParam q < 0 →
  0 < Z.of_nat (length (filteredParticipants q (participants st)))
      + pageParam q * limitParam q →
  ∃ results pagination,
    search q st = {| status := 200; body := BSearch results pagination |}
    ∧ results ≠ [].
Proof.
  intros Hlim Hpg Hlong. rewrite search_unfold.
  rewrite (search_slice_negative q st Hlim Hpg).
  eexists _, _. split; [reflexivity|].
  intros Hnil. apply (f_equal length) in Hnil.
  rewrite range_length in Hnil by lia. simpl in Hnil. nia.
Qed.

(** ** GET /api/participants/:p_no *)

Section Detail.

Implicit Types (ps : list Participant) (param : string).

(** [find] answers with the first element that passes the test. *)
Lemma find_first {A} (f : A → bool) (l : list A) :
  (List.find f l = None ∧ ∀ x, x ∈ l → f x = false)
  ∨ (∃ i x, List.find f l = Some x ∧ l !! i = Some x ∧ f x = true
            ∧ ∀ j y, (j < i)%nat → l !! j = Some y → f y = false).
Proof.
  induction l as [|a l IH]; simpl.
  - left. split; [done|]. intros x Hx. by apply elem_of_nil in Hx.
  - destruct (f a) eqn:Hfa.
    + right. exists 0%nat, a. repeat split; try done. intros j y Hj. lia.
    + destruct IH as [[Hnone Hall]|(i & x & Hfind & Hi & Hfx & Hbefore)].
      * left. split; [done|]. intros x [->|Hx]%elem_of_cons; auto.
      * right. exists (S i), x. repeat split; try done.
        intros [|j] y Hj Hy; simpl in Hy.
        -- by simplify_eq.
        -- apply (Hbefore j); [lia|done].
Qed.

End Detail.

(** C10. The detail lookup never fails: it answers 404 with the body
    [{error: "Participant not found"}] exactly when no stored record has
    the requested [p_no], and otherwise answers with the (first) stored
    record whose [p_no] is exactly the requested one. *)
Theorem participantDetail_found_or_404 (param : string) (st : ServerState) :
  (participantDetail param st =
     {| status := 404; body := BError "Participant not found" |}
   ∧ ∀ p, p ∈ participants st → p_no p ≠ param)
  ∨ (∃ i p,
       participantDetail param st = {| status := 200; body := BParticipant p |}
       ∧ participants st !! i = Some p
       ∧ p_no p = param
       ∧ ∀ j p', (j < i)%nat → participants st !! j = Some p' → p_no p' ≠ param).
Proof.
  unfold participantDetail.
  destruct (find_first (λ p, bool_decide (p_no p = param)) (participants st))
    as [[Hnone Hall]|(i & p & Hfind & Hi & Hp & Hbefore)].
  - left. rewrite Hnone. split; [done|].
    intros p Hp. specialize (Hall p Hp). by apply bool_decide_eq_false in Hall.
  - right. exists i, p. rewrite Hfind. repeat split; try done.
    + by apply bool_decide_eq_true in Hp.
    + intros j p' Hj Hp'. specialize (Hbefore j p' Hj Hp').
      by apply bool_decide_eq_false in Hbefore.
Qed.

(** ** POST /api/upload: required columns *)

Section Columns.

Implicit Types (jsonData : list Row) (col : string).




Lemma upload_schema_branch now jsonData (st : ServerState) :
  missingColumns jsonData ≠ [] →
  upload now jsonData st =
    ({| status := 400;
        body := BMissingColumns
                  ("Missing required columns: "
                     +:+ join ", " (missingColumns jsonData))
                  (missingColumns jsonData) |}, st).
Proof.
  intros Hne. unfold upload.
  destruct (missingColumns jsonData) as [|c cs]; [done|]. reflexivity.
Qed.

Lemma upload_after_schema now jsonData (st : ServerState) :
  missingColumns jsonData = [] →
  upload now jsonData st =
    if 0 <? Z.of_nat (length (validationErrors (validate jsonData))) then
      ({| status := 400;
          body := BValidation "Validation failed"
                    (validationErrors (validate jsonData)) |}, st)
    else
      ({| status := 200;
          body := BUpload
                    ("Successfully processed "
                       +:+ pretty (Z.of_nat (length jsonData)) +:+ " records")
                    (insertCount (insertRows now (participants st) jsonData))
                    (Z.of_nat (length jsonData)
                     - insertCount (insertRows now (participants st) jsonData)) |},
       saveDataToFile
         {| participants :=
              participants st
                ++ newParticipants (insertRows now (participants st) jsonData);
            file_writes := file_writes st |}).
Proof. intros Hnil. unfold upload. rewrite Hnil. reflexivity. Qed.

End Columns.


(** ** POST /api/upload: the validation pass *)

Section ForEach.

Context {A S : Type} (f : S → A → nat → S).

Lemma forEach_from_snoc (l : list A) (x : A) (i : nat) (s : S) :
  forEach_from f (l ++ [x]) i s = f (forEach_from f l i s) x (i + length l)%nat.
Proof.
  revert i s. induction l as [|a l IH]; intros i s; simpl.
  - by rewrite Nat.add_0_r.
  - rewrite IH. f_equal. lia.
Qed.

Lemma forEach_snoc (l : list A) (x : A) (s : S) :
  forEach f (l ++ [x]) s = f (forEach f l s) x (length l).
Proof. unfold forEach. by rewrite forEach_from_snoc. Qed.

End ForEach.

Section Validation.

Implicit Types (jsonData : list Row) (row : Row) (v : JSValue) (i j : nat).

Lemma falsy_truthy v : falsy v ↔ truthy v = false.
Proof.
  unfold falsy. destruct v as [|s|z|b]; simpl.
  - naive_solver.
  - rewrite negb_false_iff, bool_decide_eq_true. naive_solver.
  - rewrite negb_false_iff, Z.eqb_eq. naive_solver.
  - destruct b; naive_solver.
Qed.

Lemma validate_step jsonData i row :
  jsonData !! i = Some row →
  validate (take (S i) jsonData) = validateRow (validationBefore jsonData i) row i.
Proof.
  intros Hrow. unfold validationBefore, validate.
  rewrite (take_S_r _ _ _ Hrow), forEach_snoc.
  rewrite length_take_le; [done|].
  apply lookup_lt_Some in Hrow. lia.
Qed.

(** The validator's list is the errors of row 0, then those of row 1, and
    so on: nothing is dropped and nothing is added. *)
Lemma validate_prefix_errors jsonData i :
  (i ≤ length jsonData)%nat →
  validationErrors (validate (take i jsonData))
  = concat (imap (errorsOfRow jsonData) (take i jsonData)).
Proof.
  induction i as [|i IH]; intros Hi.
  - by rewrite take_0.
  - destruct (lookup_lt_is_Some_2 jsonData i ltac:(lia)) as [row Hrow].
    rewrite (validate_step _ _ _ Hrow). simpl.
    rewrite (take_S_r _ _ _ Hrow), imap_app, concat_app. simpl.
    unfold validationBefore at 1. rewrite IH by lia.
    rewrite app_nil_r, length_take_le, Nat.add_0_r by lia. done.
Qed.

Lemma validate_errors jsonData :
  validationErrors (validate jsonData)
  = concat (imap (errorsOfRow jsonData) jsonData).
Proof.
  rewrite <- (firstn_all jsonData) at 1 3.
  by apply validate_prefix_errors.
Qed.

Lemma elem_of_add_when (c : bool) v w (s : gset JSValue) :
  w ∈ add_when c v s ↔ (c = true ∧ w = v) ∨ w ∈ s.
Proof. unfold add_when. destruct c; set_solver. Qed.

(** What the two sets hold when the loop reaches row [i]: the truthy
    values of the column in the rows before. *)
Lemma seen_before jsonData i v :
  (i ≤ length jsonData)%nat →
  (v ∈ seenPNo (validationBefore jsonData i)
   ↔ truthy v = true
     ∧ ∃ j earlier, (j < i)%nat ∧ jsonData !! j = Some earlier
                    ∧ get earlier "P.No" = v)
  ∧ (v ∈ seenMobileNo (validationBefore jsonData i)
     ↔ truthy v = true
       ∧ ∃ j earlier, (j < i)%nat ∧ jsonData !! j = Some earlier
                      ∧ get earlier "Mobile No" = v).
Proof.
  induction i as [|i IH]; intros Hi.
  - unfold validationBefore. rewrite take_0. simpl.
    split; (split; [set_solver|intros (_ & j & ? & ? & _); lia]).
  - destruct (lookup_lt_is_Some_2 jsonData i ltac:(lia)) as [row Hrow].
    destruct (IH ltac:(lia)) as [IHp IHm].
    unfold validationBefore at 1 2.
    rewrite (validate_step _ _ _ Hrow). simpl.
    rewrite !elem_of_add_when, IHp, IHm.
    split; (split;
      [ intros [[Ht ->]|(Ht & j & earlier & Hj & Hlook & Hget)];
        [ split; [done|]; exists i, row; split; [lia|done]
        | split; [done|]; exists j, earlier; split; [lia|done] ]
      | intros (Ht & j & earlier & Hj & Hlook & Hget);
        destruct (decide (j = i)) as [->|Hne];
        [ left; rewrite Hrow in Hlook; simplify_eq; done
        | right; split; [done|]; exists j, earlier; split; [lia|done] ] ]).
Qed.

End Validation.

Section StringFacts.

Implicit Types (s t u : string) (a b : ascii).

Lemma string_app_cons a s t : String a s +:+ t = String a (s +:+ t).
Proof. reflexivity. Qed.

Lemma string_app_assoc s t u : (s +:+ t) +:+ u = s +:+ (t +:+ u).
Proof.
  induction s as [|a s IH]; [done|]. by rewrite !string_app_cons, IH.
Qed.

End StringFacts.

Section RowErrors.

Implicit Types (jsonData : list Row) (row : Row) (v : JSValue) (i j : nat).
Implicit Types (seenP seenM : gset JSValue) (msg : string).

Lemma push_when_nil (c : bool) msg (errs : list string) :
  push_when c msg errs = [] ↔ c = false ∧ errs = [].
Proof.
  unfold push_when. destruct c.
  - split; [intros H; by apply app_nil in H as [_ ?]|intros [? _]; done].
  - naive_solver.
Qed.

Lemma elem_of_push_when (c : bool) msg msg' (errs : list string) :
  msg' ∈ push_when c msg errs → msg' = msg ∨ msg' ∈ errs.
Proof.
  unfold push_when. destruct c; [|by right].
  rewrite elem_of_app, list_elem_of_singleton. tauto.
Qed.

Lemma validAttendance_false v :
  validAttendance (normalizeAttendance v) = false ↔ badAttendance v.
Proof.
  unfold validAttendance, normalizeAttendance, badAttendance.
  rewrite bool_decide_eq_false.
  rewrite !elem_of_cons, elem_of_nil. tauto.
Qed.

(** A row is left without a message exactly when none of the five tests of
    the loop body fires. *)
Lemma rowErrors_nil seenP seenM i row :
  rowErrors seenP seenM i row = []
  ↔ truthy (get row "P.No") = true
    ∧ truthy (get row "Mobile No") = true
    ∧ truthy (get row "Name") = true
    ∧ (get row "P.No" ∉ seenP)
    ∧ (get row "Mobile No" ∉ seenM)
    ∧ validAttendance (normalizeAttendance (get row "Attendance Day 1")) = true
    ∧ validAttendance (normalizeAttendance (get row "Attendance Day 2")) = true.
Proof.
  unfold rowErrors. rewrite !push_when_nil.
  rewrite !bool_decide_eq_false, !negb_false_iff, !orb_false_iff, !negb_false_iff.
  naive_solver.
Qed.

Lemma rowErrors_label seenP seenM i row msg :
  msg ∈ rowErrors seenP seenM i row →
  ∃ rest, msg = "Row " +:+ pretty (Z.of_nat i + 2) +:+ ": " +:+ rest.
Proof.
  unfold rowErrors, rowLabel. intros Hin.
  repeat (apply elem_of_push_when in Hin as [->|Hin];
          [rewrite ?string_app_assoc; by eexists|]).
  by apply elem_of_nil in Hin.
Qed.

(** The rows the validator rejects. *)
Lemma errorsOfRow_rejected jsonData i row :
  jsonData !! i = Some row →
  errorsOfRow jsonData i row ≠ [] ↔ rowRejected falsy jsonData i row.
Proof.
  intros Hrow.
  assert (Hi : (i ≤ length jsonData)%nat)
    by (apply lookup_lt_Some in Hrow; lia).
  pose proof (seen_before jsonData i (get row "P.No") Hi) as [HP _].
  pose proof (seen_before jsonData i (get row "Mobile No") Hi) as [_ HM].
  change (∃ j earlier, _ ∧ _ ∧ get earlier "P.No" = get row "P.No")
    with (repeatsEarlier "P.No" jsonData i row) in HP.
  change (∃ j earlier, _ ∧ _ ∧ get earlier "Mobile No" = get row "Mobile No")
    with (repeatsEarlier "Mobile No" jsonData i row) in HM.
  unfold errorsOfRow, rowRejected. rewrite rowErrors_nil.
  rewrite <- !validAttendance_false, !falsy_truthy.
  destruct (decide (get row "P.No" ∈ seenPNo (validationBefore jsonData i)))
    as [Hp|Hp];
  destruct (decide (get row "Mobile No"
                      ∈ seenMobileNo (validationBefore jsonData i)))
    as [Hm|Hm];
  destruct (truthy (get row "P.No")), (truthy (get row "Mobile No")),
    (truthy (get row "Name")),
    (validAttendance (normalizeAttendance (get row "Attendance Day 1"))),
    (validAttendance (normalizeAttendance (get row "Attendance Day 2")));
  intuition congruence.
Qed.

End RowErrors.

(** C2, as stated, fails on a numeric cell.  A row whose P.No cell is the
    number 0 has all three required cells present and not empty, repeats
    nothing and has good attendance cells, and still the validator records
    "Missing required fields" for it. *)
Lemma validation_rejects_zero_cell :
  [Sample.rowZero] !! 0%nat = Some Sample.rowZero
  ∧ errorsOfRow [Sample.rowZero] 0 Sample.rowZero
    = ["Row 2: Missing required fields (P.No, Mobile No, or Name)"]
  ∧ ¬ rowRejected emptyOrMissing [Sample.rowZero] 0 Sample.rowZero.
Proof.
  split; [done|]. split; [vm_compute; reflexivity|].
  unfold rowRejected, emptyOrMissing, repeatsEarlier, badAttendance.
  replace (get Sample.rowZero "P.No") with (JNumber 0)
    by (vm_compute; reflexivity).
  replace (get Sample.rowZero "Mobile No") with (JString "9000000003")
    by (vm_compute; reflexivity).
  replace (get Sample.rowZero "Name") with (JString "Cy")
    by (vm_compute; reflexivity).
  replace (trim (toUpperCase (ToString (get Sample.rowZero "Attendance Day 1"))))
    with "P" by (vm_compute; reflexivity).
  replace (trim (toUpperCase (ToString (get Sample.rowZero "Attendance Day 2"))))
    with "A" by (vm_compute; reflexivity).
  intros [[?|?]|[[?|?]|[[?|?]|[[_ (j & ? & ? & _)]|[[_ (j & ? & ? & _)]|[[? ?]|[? ?]]]]]]];
    try done; lia.
Qed.

(** C2, amended.  The validator records at least one row error for the row
    of index [i] if and only if its P.No, Mobile No or Name cell is falsy
    (missing, the empty string, the number 0 or the boolean false), or its
    P.No or Mobile No is not falsy and is the value of the same column in
    an earlier row of the batch, or one of its attendance cells, uppercased
    and trimmed, is neither P nor A.  Every message of the row starts with
    "Row i+2: ", and the validator's list is the row errors of all rows in
    row order. *)
Theorem validation_row_errors (jsonData : list Row) (i : nat) (row : Row) :
  jsonData !! i = Some row →
  (errorsOfRow jsonData i row ≠ [] ↔ rowRejected falsy jsonData i row)
  ∧ (∀ msg, msg ∈ errorsOfRow jsonData i row →
       ∃ rest, msg = "Row " +:+ pretty (Z.of_nat i + 2) +:+ ": " +:+ rest)
  ∧ validationErrors (validate jsonData)
    = concat (imap (errorsOfRow jsonData) jsonData).
Proof.
  intros Hrow. split; [|split].
  - by apply errorsOfRow_rejected.
  - intros msg. apply rowErrors_label.
  - apply validate_errors.
Qed.

Lemma validation_row_errors_witness :
  [Sample.rowZero] !! 0%nat = Some Sample.rowZero
  ∧ (errorsOfRow [Sample.rowZero] 0 Sample.rowZero ≠ []
     ↔ rowRejected falsy [Sample.rowZero] 0 Sample.rowZero).
Proof.
  split; [reflexivity|].
  apply (validation_row_errors [Sample.rowZero] 0 Sample.rowZero).
  reflexivity.
Defined.

(** C3. When the batch has all its columns and some row has a row error,
    the upload answers 400 "Validation failed" with the row errors of all
    the rows, in row order, and leaves the server state as it was: no
    record is appended and the data file is not written. *)
Theorem upload_validation_failure (now : Z → string) (jsonData : list Row)
    (st : ServerState) :
  missingColumns jsonData = [] →
  (∃ i row, jsonData !! i = Some row ∧ errorsOfRow jsonData i row ≠ []) →
  upload now jsonData st =
    ({| status := 400;
        body := BValidation "Validation failed"
                  (concat (imap (errorsOfRow jsonData) jsonData)) |}, st).
Proof.
  intros Hcols (i & row & Hrow & Herr).
  rewrite (upload_after_schema _ _ _ Hcols), validate_errors.
  destruct (concat (imap (errorsOfRow jsonData) jsonData)) as [|e es] eqn:Hall;
    [|reflexivity].
  exfalso. apply Herr.
  apply concat_nil_Forall in Hall. rewrite Forall_lookup in Hall.
  apply (Hall i). by rewrite list_lookup_imap, Hrow.
Qed.

Lemma upload_validation_failure_witness :
  missingColumns [Sample.rowAnn; Sample.rowLate] = []
  ∧ upload Sample.clock [Sample.rowAnn; Sample.rowLate] Sample.server25 =
      ({| status := 400;
          body := BValidation "Validation failed"
            ["Row 3: Invalid value for Attendance Day 1 (expected P or A, got late)"] |},
       Sample.server25).
Proof.
  split; [vm_compute; reflexivity|].
  rewrite (upload_validation_failure Sample.clock
             [Sample.rowAnn; Sample.rowLate] Sample.server25).
  - vm_compute. reflexivity.
  - vm_compute. reflexivity.
  - exists 1%nat, Sample.rowLate. split; [reflexivity|].
    vm_compute. discriminate.
Defined.


(** ** POST /api/upload: the insertion pass *)

Section Insertion.

Variable now : Z → string.

Implicit Types (ps : list Participant) (jsonData : list Row) (row : Row).
Implicit Types (dc : gmap JSValue Participant) (k : JSValue) (p : Participant).
Implicit Types (i j : nat).

Lemma indexParticipant_keys dc p k :
  is_Some (indexParticipant dc p !! k) ↔ is_Some (dc !! k) ∨ keyOf k p.
Proof.
  unfold indexParticipant, keyOf. rewrite !lookup_insert_is_Some'.
  naive_solver.
Qed.

Lemma foldl_indexParticipant_keys ps dc k :
  is_Some (foldl indexParticipant dc ps !! k)
  ↔ is_Some (dc !! k) ∨ ∃ p, p ∈ ps ∧ keyOf k p.
Proof.
  revert dc. induction ps as [|q ps IH]; intros dc; simpl.
  - split; [by left|]. intros [?|(p & Hin & _)]; [done|].
    by apply elem_of_nil in Hin.
  - rewrite IH, indexParticipant_keys. split.
    + intros [[?|?]|(p & Hin & Hk)].
      * by left.
      * right. exists q. split; [left|done].
      * right. exists p. split; [by right|done].
    + intros [?|(p & [->|Hin]%elem_of_cons & Hk)].
      * left. by left.
      * left. by right.
      * right. by exists p.
Qed.

(** The map built from the store has the p_no and the mobile_no of every
    stored record as keys, and nothing else. *)
Lemma buildDuplicateCheck_keys ps k :
  has (buildDuplicateCheck ps) k = true ↔ ∃ p, p ∈ ps ∧ keyOf k p.
Proof.
  unfold has, buildDuplicateCheck.
  rewrite bool_decide_eq_true, foldl_indexParticipant_keys, lookup_empty.
  split; [intros [[? ?]|?]; done|by right].
Qed.

Lemma insertRows_snoc ps jsonData row :
  insertRows now ps (jsonData ++ [row])
  = insertRow now (insertRows now ps jsonData) row.
Proof. unfold insertRows. by rewrite foldl_app. Qed.

Lemma insertion_step ps jsonData i row :
  jsonData !! i = Some row →
  insertionBefore now ps jsonData (S i)
  = insertRow now (insertionBefore now ps jsonData i) row.
Proof.
  intros Hrow. unfold insertionBefore.
  by rewrite (take_S_r _ _ _ Hrow), insertRows_snoc.
Qed.

Lemma insertRow_unfold (st : Insertion) row :
  insertRow now st row =
    if isDuplicate (duplicateCheck st) row then st
    else {| duplicateCheck :=
              indexParticipant (duplicateCheck st)
                (newParticipant row (now (insertCount st)));
            insertCount := insertCount st + 1;
            newParticipants :=
              newParticipants st ++ [newParticipant row (now (insertCount st))] |}.
Proof. reflexivity. Qed.

(** Invariant of the insertion loop: the counter is the number of records
    created, and the keys of the map are those of the store and of the
    records created. *)
Lemma insertRows_invariant ps jsonData :
  insertCount (insertRows now ps jsonData)
  = Z.of_nat (length (newParticipants (insertRows now ps jsonData)))
  ∧ ∀ k, is_Some (duplicateCheck (insertRows now ps jsonData) !! k)
         ↔ ∃ p, p ∈ ps ++ newParticipants (insertRows now ps jsonData)
                ∧ keyOf k p.
Proof.
  induction jsonData as [|row jsonData IH] using rev_ind.
  - split; [done|]. intros k. simpl. rewrite app_nil_r.
    rewrite <- buildDuplicateCheck_keys. unfold has.
    by rewrite bool_decide_eq_true.
  - destruct IH as [IHc IHk].
    rewrite insertRows_snoc, insertRow_unfold.
    destruct (isDuplicate _ row); [done|]. simpl. split.
    + rewrite length_app. simpl. lia.
    + intros k. rewrite indexParticipant_keys, IHk.
      split.
      * intros [(p & Hin & Hk)|Hk].
        -- exists p. split; [|done]. rewrite app_assoc, elem_of_app. by left.
        -- eexists. split; [|exact Hk].
           rewrite app_assoc, elem_of_app. right. left.
      * intros (p & Hin & Hk).
        rewrite app_assoc, elem_of_app, list_elem_of_singleton in Hin.
        destruct Hin as [Hin| ->]; [left; by exists p|by right].
Qed.

Lemma newParticipants_step ps jsonData i row :
  jsonData !! i = Some row →
  newParticipants (insertionBefore now ps jsonData (S i))
  = newParticipants (insertionBefore now ps jsonData i)
    ++ (if skips now ps jsonData i row then []
        else [newParticipant row
                (now (insertCount (insertionBefore now ps jsonData i)))]).
Proof.
  intros Hrow. rewrite (insertion_step _ _ _ _ Hrow), insertRow_unfold.
  unfold skips. destruct (isDuplicate _ row); simpl; [|done].
  by rewrite app_nil_r.
Qed.

(** The records created are those of the rows kept, in row order; the
    k-th of them carries the k-th reading of the clock. *)
Lemma newParticipants_prefix ps jsonData i :
  (i ≤ length jsonData)%nat →
  newParticipants (insertionBefore now ps jsonData i)
  = imap (λ n row, newParticipant row (now (Z.of_nat n)))
      (concat (imap (λ j row, if skips now ps jsonData j row then [] else [row])
                    (take i jsonData))).
Proof.
  induction i as [|i IH]; intros Hi.
  - by rewrite take_0.
  - destruct (lookup_lt_is_Some_2 jsonData i ltac:(lia)) as [row Hrow].
    rewrite (newParticipants_step _ _ _ _ Hrow).
    rewrite (take_S_r _ _ _ Hrow), imap_app, concat_app, imap_app.
    rewrite <- IH by lia. f_equal. simpl.
    rewrite length_take_le, Nat.add_0_r, app_nil_r by lia.
    destruct (skips now ps jsonData i row); simpl; [done|].
    rewrite Nat.add_0_r.
    destruct (insertRows_invariant ps (take i jsonData)) as [Hc _].
    fold (insertionBefore now ps jsonData i) in Hc. rewrite Hc.
    do 3 f_equal. rewrite IH by lia. by rewrite length_imap.
Qed.

Lemma newParticipants_kept ps jsonData :
  newParticipants (insertRows now ps jsonData)
  = imap (λ n row, newParticipant row (now (Z.of_nat n)))
         (keptRows now ps jsonData).
Proof.
  pose proof (newParticipants_prefix ps jsonData (length jsonData)
                ltac:(lia)) as H.
  unfold insertionBefore in H. by rewrite firstn_all in H.
Qed.

(** The records created before row [i] come from the rows before it that
    were kept. *)
Lemma elem_of_newParticipants_before ps jsonData i p :
  (i ≤ length jsonData)%nat →
  p ∈ newParticipants (insertionBefore now ps jsonData i)
  ↔ ∃ j earlier,
      (j < i)%nat ∧ jsonData !! j = Some earlier
      ∧ skips now ps jsonData j earlier = false
      ∧ p = newParticipant earlier
              (now (insertCount (insertionBefore now ps jsonData j))).
Proof.
  induction i as [|i IH]; intros Hi.
  - unfold insertionBefore. rewrite take_0. simpl. split.
    + intros Hin. by apply elem_of_nil in Hin.
    + intros (j & _ & Hj & _). lia.
  - destruct (lookup_lt_is_Some_2 jsonData i ltac:(lia)) as [row Hrow].
    rewrite (newParticipants_step _ _ _ _ Hrow), elem_of_app, IH by lia.
    split.
    + intros [(j & earlier & Hj & Hlook & Hkept & ->)|Hin].
      * exists j, earlier. split; [lia|done].
      * destruct (skips now ps jsonData i row) eqn:Hs;
          [by apply elem_of_nil in Hin|].
        apply list_elem_of_singleton in Hin as ->.
        exists i, row. split; [lia|done].
    + intros (j & earlier & Hj & Hlook & Hkept & ->).
      destruct (decide (j = i)) as [->|Hne].
      * right. rewrite Hrow in Hlook. simplify_eq. rewrite Hkept.
        apply list_elem_of_singleton. done.
      * left. exists j, earlier. split; [lia|done].
Qed.

Lemma kept_skipped_split {A} (f : nat → A → bool) (l : list A) :
  (length (concat (imap (λ i x, if f i x then [] else [x]) l))
   + length (concat (imap (λ i x, if f i x then [x] else []) l)))%nat
  = length l.
Proof.
  revert f. induction l as [|x l IH]; intros f; [done|].
  simpl. rewrite !length_app.
  specialize (IH (λ i, f (S i))). simpl in IH. unfold compose.
  destruct (f 0%nat x); simpl; lia.
Qed.

Lemma keptRows_skippedRows_length ps jsonData :
  (length (keptRows now ps jsonData) + length (skippedRows now ps jsonData))%nat
  = length jsonData.
Proof. apply kept_skipped_split. Qed.

Lemma has_text_key dc (a : string) ps' :
  (∀ k, is_Some (dc !! k) ↔ ∃ p, p ∈ ps' ∧ keyOf k p) →
  has dc (JString a) = true ↔ ∃ p, p ∈ ps' ∧ a ∈ keysOf p.
Proof.
  intros Hkeys. unfold has. rewrite bool_decide_eq_true, Hkeys.
  unfold keyOf, keysOf. split; intros (p & Hin & Hk); exists p; (split; [done|]).
  - rewrite !elem_of_cons. destruct Hk as [Hk|Hk]; simplify_eq; auto.
  - rewrite !elem_of_cons, elem_of_nil in Hk. naive_solver.
Qed.

(** The rows the insertion loop skips, when the key cells are text. *)
Lemma skipped_matches ps jsonData i row :
  jsonData !! i = Some row → textKeys row →
  skipped now ps jsonData i row
  ↔ matchesStore ps row ∨ matchesKeptRow now ps jsonData i row.
Proof.
  intros Hrow (a & b & Ha & Hb).
  assert (Hi : (i ≤ length jsonData)%nat)
    by (apply lookup_lt_Some in Hrow; lia).
  destruct (insertRows_invariant ps (take i jsonData)) as [_ Hkeys].
  fold (insertionBefore now ps jsonData i) in Hkeys.
  unfold skipped, skips, isDuplicate. rewrite Ha, Hb, orb_true_iff.
  rewrite !(has_text_key _ _ _ Hkeys).
  unfold matchesStore, matchesKeptRow, rowKeys. rewrite Ha, Hb. simpl.
  setoid_rewrite elem_of_app.
  setoid_rewrite (elem_of_newParticipants_before ps jsonData i _ Hi).
  split.
  - intros Hdup.
    assert (∃ key p, key ∈ [a; b] ∧ key ∈ keysOf p
              ∧ (p ∈ ps ∨ ∃ j earlier, (j < i)%nat ∧ jsonData !! j = Some earlier
                   ∧ skips now ps jsonData j earlier = false
                   ∧ p = newParticipant earlier
                       (now (insertCount (insertionBefore now ps jsonData j)))))
      as (key & p & Hkey & Hp & Hwhere).
    { destruct Hdup as [(p & Hin & Hk)|(p & Hin & Hk)].
      - exists a, p. split; [left|done].
      - exists b, p. split; [right; left|done]. }
    destruct Hwhere as [Hin|(j & earlier & Hj & Hlook & Hkept & ->)].
    + left. by exists p, key.
    + right. exists j, earlier, key. repeat split; try done.
      unfold skipped. by rewrite Hkept.
  - intros [(p & key & Hin & Hp & Hkey)
           |(j & earlier & key & Hj & Hlook & Hkept & Hearlier & Hkey)].
    + rewrite !elem_of_cons, elem_of_nil in Hkey.
      destruct Hkey as [->|[->|[]]]; [left|right]; exists p; auto.
    + assert (Hs : skips now ps jsonData j earlier = false).
      { unfold skipped in Hkept. by destruct (skips now ps jsonData j earlier). }
      rewrite !elem_of_cons, elem_of_nil in Hkey.
      destruct Hkey as [->|[->|[]]]; [left|right];
        (eexists; split; [right; exists j, earlier; eauto|done]).
Qed.

End Insertion.

Section UploadSuccess.

Variable now : Z → string.

Implicit Types (jsonData : list Row) (row : Row) (st : ServerState).
Implicit Types (p : Participant) (i j : nat).

Lemma upload_valid jsonData st :
  passesValidation jsonData →
  upload now jsonData st =
    ({| status := 200;
        body := BUpload
                  ("Successfully processed "
                     +:+ pretty (Z.of_nat (length jsonData)) +:+ " records")
                  (Z.of_nat (length (keptRows now (participants st) jsonData)))
                  (Z.of_nat (length (skippedRows now (participants st) jsonData))) |},
     {| participants :=
          participants st
            ++ imap (λ n row, newParticipant row (now (Z.of_nat n)))
                    (keptRows now (participants st) jsonData);
        file_writes :=
          file_writes st
            ++ [participants st
                  ++ imap (λ n row, newParticipant row (now (Z.of_nat n)))
                          (keptRows now (participants st) jsonData)] |}).
Proof.
  intros [Hcols Herrs]. rewrite (upload_after_schema _ _ _ Hcols), Herrs. simpl.
  destruct (insertRows_invariant now (participants st) jsonData) as [Hc _].
  pose proof (keptRows_skippedRows_length now (participants st) jsonData) as Hlen.
  rewrite Hc, newParticipants_kept, length_imap.
  unfold saveDataToFile. simpl. do 3 f_equal. lia.
Qed.

Lemma valid_batch_rows jsonData i row :
  validationErrors (validate jsonData) = [] →
  jsonData !! i = Some row →
  errorsOfRow jsonData i row = [].
Proof.
  intros Herrs Hrow. rewrite validate_errors in Herrs.
  apply concat_nil_Forall in Herrs. rewrite Forall_lookup in Herrs.
  apply (Herrs i). by rewrite list_lookup_imap, Hrow.
Qed.

(** Up to surrounding blanks, the attendance of a record created from a
    valid batch is P or A. *)
Lemma upload_attendance_trimmed jsonData st p :
  passesValidation jsonData →
  p ∈ newParticipants (insertRows now (participants st) jsonData) →
  trim (attendance_day1 p) ∈ ["P"; "A"] ∧ trim (attendance_day2 p) ∈ ["P"; "A"].
Proof.
  intros [_ Herrs] Hin.
  pose proof (elem_of_newParticipants_before now (participants st) jsonData
                (length jsonData) p ltac:(lia)) as Hiff.
  unfold insertionBefore in Hiff at 1. rewrite firstn_all in Hiff.
  apply Hiff in Hin as (j & row & _ & Hrow & _ & ->).
  pose proof (valid_batch_rows _ _ _ Herrs Hrow) as Hnil.
  unfold errorsOfRow in Hnil. apply rowErrors_nil in Hnil.
  destruct Hnil as (_ & _ & _ & _ & _ & H1 & H2).
  unfold validAttendance in H1, H2.
  apply bool_decide_eq_true in H1, H2. done.
Qed.

Lemma store_key_skipped ps jsonData i row p key :
  jsonData !! i = Some row → p ∈ ps → key ∈ keysOf p →
  get row "P.No" = JString key ∨ get row "Mobile No" = JString key →
  skipped now ps jsonData i row.
Proof.
  intros Hrow Hp Hkey Hcell.
  destruct (insertRows_invariant now ps (take i jsonData)) as [_ Hkeys].
  fold (insertionBefore now ps jsonData i) in Hkeys.
  assert (Hhas : has (duplicateCheck (insertionBefore now ps jsonData i))
                     (JString key) = true).
  { unfold has. rewrite bool_decide_eq_true, Hkeys. exists p. split.
    - rewrite elem_of_app. by left.
    - unfold keysOf in Hkey. rewrite !elem_of_cons, elem_of_nil in Hkey.
      unfold keyOf. naive_solver. }
  unfold skipped, skips, isDuplicate. apply orb_true_iff.
  destruct Hcell as [->| ->]; auto.
Qed.

End UploadSuccess.

(** C1, at a padded cell.  The one-row batch whose Attendance Day 1 cell
    is " p " passes validation, where the cell is uppercased and trimmed,
    and its record is stored with [attendance_day1] = " P ", blanks
    included: not "P" and not "A". *)
Theorem upload_stores_padded_attendance :
  passesValidation [Sample.rowPadded]
  ∧ upload Sample.clock [Sample.rowPadded] Sample.emptyServer =
      ({| status := 200;
          body := BUpload "Successfully processed 1 records" 1 0 |},
       {| participants :=
            [{| p_no := "104"; mobile_no := "9000000004"; name := "Dee";
                trade := "Welding"; gender := "F";
                attendance_day1 := " P "; attendance_day2 := "A";
                created_at := Sample.clock 0 |}];
          file_writes :=
            [[{| p_no := "104"; mobile_no := "9000000004"; name := "Dee";
                 trade := "Welding"; gender := "F";
                 attendance_day1 := " P "; attendance_day2 := "A";
                 created_at := Sample.clock 0 |}]] |})
  ∧ " P " ∉ ["P"; "A"].
Proof.
  split; [split; vm_compute; reflexivity|].
  split; [vm_compute; reflexivity|].
  rewrite !elem_of_cons, elem_of_nil. intros [?|[?|[]]]; discriminate.
Qed.

(** C4, as stated, fails on a fresh store.  With nothing stored, the batch
    of [rowFirst] and [rowSecond] passes validation, yet the second row is
    skipped, because its P.No is the Mobile No of the first row: one record
    inserted, one duplicate counted, and no stored record to match. *)
Lemma upload_skips_row_of_fresh_batch :
  passesValidation [Sample.rowFirst; Sample.rowSecond]
  ∧ upload Sample.clock [Sample.rowFirst; Sample.rowSecond] Sample.emptyServer =
      ({| status := 200;
          body := BUpload "Successfully processed 2 records" 1 1 |},
       {| participants := [newParticipant Sample.rowFirst (Sample.clock 0)];
          file_writes := [[newParticipant Sample.rowFirst (Sample.clock 0)]] |})
  ∧ skipped Sample.clock (participants Sample.emptyServer)
            [Sample.rowFirst; Sample.rowSecond] 1 Sample.rowSecond
  ∧ ¬ matchesStore (participants Sample.emptyServer) Sample.rowSecond.
Proof.
  split; [split; vm_compute; reflexivity|].
  split; [vm_compute; reflexivity|].
  split; [vm_compute; reflexivity|].
  intros (p & key & Hin & _). simpl in Hin. by apply elem_of_nil in Hin.
Qed.

(** C4, amended.  For a batch that passes validation and whose P.No and
    Mobile No cells are text, the upload answers 200 without any error;
    [insertedRecords] is the number of rows kept and [duplicatesSkipped]
    the number of rows skipped, which add up to the number of rows; the
    records of the rows kept are appended to the store in batch order and
    the new store is written to the data file; and a row is skipped exactly
    when its P.No or Mobile No is the p_no or mobile_no of a record that
    was in the store before the upload, or the P.No or Mobile No of an
    earlier row of the batch that was kept. *)
Theorem upload_valid_batch (now : Z → string) (jsonData : list Row)
    (st : ServerState) :
  passesValidation jsonData → Forall textKeys jsonData →
  upload now jsonData st =
    ({| status := 200;
        body := BUpload
                  ("Successfully processed "
                     +:+ pretty (Z.of_nat (length jsonData)) +:+ " records")
                  (Z.of_nat (length (keptRows now (participants st) jsonData)))
                  (Z.of_nat (length (skippedRows now (participants st) jsonData))) |},
     {| participants :=
          participants st
            ++ imap (λ n row, newParticipant row (now (Z.of_nat n)))
                    (keptRows now (participants st) jsonData);
        file_writes :=
          file_writes st
            ++ [participants st
                  ++ imap (λ n row, newParticipant row (now (Z.of_nat n)))
                          (keptRows now (participants st) jsonData)] |})
  ∧ Z.of_nat (length (keptRows now (participants st) jsonData))
    + Z.of_nat (length (skippedRows now (participants st) jsonData))
    = Z.of_nat (length jsonData)
  ∧ ∀ i row, jsonData !! i = Some row →
      (skipped now (participants st) jsonData i row
       ↔ matchesStore (participants st) row
         ∨ matchesKeptRow now (participants st) jsonData i row).
Proof.
  intros Hvalid Htext. split; [|split].
  - by apply upload_valid.
  - pose proof (keptRows_skippedRows_length now (participants st) jsonData). lia.
  - intros i row Hrow. apply skipped_matches; [done|].
    rewrite Forall_lookup in Htext. by apply (Htext i).
Qed.

Lemma upload_valid_batch_witness :
  passesValidation [Sample.rowFirst; Sample.rowSecond]
  ∧ Forall textKeys [Sample.rowFirst; Sample.rowSecond]
  ∧ (skipped Sample.clock (participants Sample.server1)
       [Sample.rowFirst; Sample.rowSecond] 1 Sample.rowSecond
     ↔ matchesStore (participants Sample.server1) Sample.rowSecond
       ∨ matchesKeptRow Sample.clock (participants Sample.server1)
           [Sample.rowFirst; Sample.rowSecond] 1 Sample.rowSecond).
Proof.
  assert (Hvalid : passesValidation [Sample.rowFirst; Sample.rowSecond])
    by (split; vm_compute; reflexivity).
  assert (Htext : Forall textKeys [Sample.rowFirst; Sample.rowSecond]).
  { repeat constructor.
    - exists "7001", "7002". split; vm_compute; reflexivity.
    - exists "7002", "7003". split; vm_compute; reflexivity. }
  split; [exact Hvalid|]. split; [exact Htext|].
  destruct (upload_valid_batch Sample.clock [Sample.rowFirst; Sample.rowSecond]
              Sample.server1 Hvalid Htext) as (_ & _ & Hskip).
  apply (Hskip 1%nat Sample.rowSecond). reflexivity.
Defined.

(** C9. The map [duplicateCheck] built from the store is one merged key
    set: its keys are the p_no and the mobile_no of every stored record.  A
    batch row whose P.No or Mobile No cell is either key of a stored record
    is skipped.  In particular, with [person 0] stored, the row whose P.No
    is the mobile_no of [person 0], and whose cells collide with no stored
    key otherwise, is skipped as a duplicate. *)
Theorem duplicate_check_merged_keys :
  (∀ (ps : list Participant) (k : JSValue),
     has (buildDuplicateCheck ps) k = true
     ↔ ∃ p, p ∈ ps ∧ (k = JString (p_no p) ∨ k = JString (mobile_no p)))
  ∧ (∀ (now : Z → string) (ps : list Participant) (jsonData : list Row)
       (i : nat) (row : Row) (p : Participant) (key : string),
       jsonData !! i = Some row → p ∈ ps → key ∈ keysOf p →
       get row "P.No" = JString key ∨ get row "Mobile No" = JString key →
       skipped now ps jsonData i row)
  ∧ (passesValidation [Sample.rowCross]
     ∧ get Sample.rowCross "P.No" = JString (mobile_no (Sample.person 0))
     ∧ get Sample.rowCross "P.No" ≠ JString (p_no (Sample.person 0))
     ∧ get Sample.rowCross "Mobile No" ≠ JString (p_no (Sample.person 0))
     ∧ get Sample.rowCross "Mobile No" ≠ JString (mobile_no (Sample.person 0))
     ∧ upload Sample.clock [Sample.rowCross] Sample.server1 =
         ({| status := 200;
             body := BUpload "Successfully processed 1 records" 0 1 |},
          {| participants := [Sample.person 0];
             file_writes := [[Sample.person 0]] |})).
Proof.
  split; [|split].
  - intros ps k. apply buildDuplicateCheck_keys.
  - intros now ps jsonData i row p key. apply store_key_skipped.
  - split; [split; vm_compute; reflexivity|].
    split; [vm_compute; reflexivity|].
    split; [vm_compute; discriminate|].
    split; [vm_compute; discriminate|].
    split; [vm_compute; discriminate|].
    vm_compute. reflexivity.
Qed.

(** ** GET /api/participants: the filters *)

Section Substrings.

Implicit Types (s t u needle : string) (a b : ascii).

Lemma prefix_occurs needle s :
  String.prefix needle s = true ↔ ∃ post, s = needle +:+ post.
Proof.
  revert s. induction needle as [|a needle IH]; intros s.
  - split; [intros _; exists s; reflexivity|]. intros _. by destruct s.
  - destruct s as [|b s]; simpl.
    + split; [done|]. intros [post Hpost]. discriminate.
    + destruct (ascii_dec a b) as [->|Hne].
      * rewrite IH. split; intros [post Hpost]; exists post.
        -- by rewrite string_app_cons, Hpost.
        -- rewrite string_app_cons in Hpost. by simplify_eq.
      * split; [done|]. intros [post Hpost].
        rewrite string_app_cons in Hpost. by simplify_eq.
Qed.

Lemma includes_nil needle :
  includes "" needle = String.prefix needle "" || false.
Proof. reflexivity. Qed.

Lemma includes_cons b s needle :
  includes (String b s) needle
  = String.prefix needle (String b s) || includes s needle.
Proof. reflexivity. Qed.

(** [includes] is the occurrence of a contiguous substring. *)
Lemma includes_occurs s needle : includes s needle = true ↔ occurs needle s.
Proof.
  unfold occurs. induction s as [|b s IH].
  - rewrite includes_nil, orb_false_r, prefix_occurs. split.
    + intros [post Hpost]. by exists "", post.
    + intros (pre & post & Hs). destruct pre as [|c pre]; [|discriminate].
      by exists post.
  - rewrite includes_cons, orb_true_iff, prefix_occurs, IH. split.
    + intros [[post Hpost]|(pre & post & Hs)].
      * by exists "", post.
      * exists (String b pre), post. by rewrite string_app_cons, Hs.
    + intros (pre & post & Hs). destruct pre as [|c pre].
      * left. by exists post.
      * right. rewrite string_app_cons in Hs. simplify_eq. by exists pre, post.
Qed.

Lemma string_map_app (f : ascii → ascii) s t :
  string_map f (s +:+ t) = string_map f s +:+ string_map f t.
Proof.
  induction s as [|a s IH]; [done|].
  rewrite string_app_cons. simpl. by rewrite IH, string_app_cons.
Qed.

Lemma string_map_app_inv (f : ascii → ascii) s x y :
  string_map f s = x +:+ y →
  ∃ s1 s2, s = s1 +:+ s2 ∧ string_map f s1 = x ∧ string_map f s2 = y.
Proof.
  revert s. induction x as [|a x IH]; intros s Hs.
  - by exists "", s.
  - destruct s as [|b s]; [discriminate|].
    rewrite string_app_cons in Hs. simpl in Hs. simplify_eq.
    destruct (IH s ltac:(done)) as (s1 & s2 & -> & <- & <-).
    by exists (String b s1), s2.
Qed.

Lemma N_of_ascii_toLowerCase a :
  N_of_ascii (ascii_toLowerCase a)
  = if ((65 <=? N_of_ascii a) && (N_of_ascii a <=? 90))%N
    then (N_of_ascii a + 32)%N else N_of_ascii a.
Proof.
  unfold ascii_toLowerCase.
  destruct ((65 <=? N_of_ascii a) && (N_of_ascii a <=? 90))%N eqn:Hup; [|done].
  apply andb_true_iff in Hup as [H1%N.leb_le H2%N.leb_le].
  apply N_ascii_embedding. lia.
Qed.

Lemma N_of_ascii_inj a b : N_of_ascii a = N_of_ascii b → a = b.
Proof.
  intros H. rewrite <- (ascii_N_embedding a), <- (ascii_N_embedding b).
  by rewrite H.
Qed.

Ltac letter_bounds :=
  repeat match goal with
  | H : (_ && _) = true |- _ => apply andb_true_iff in H as [? ?]
  | H : (_ && _) = false |- _ => apply andb_false_iff in H as [?|?]
  | H : (_ <=? _)%N = true |- _ => apply N.leb_le in H
  | H : (_ <=? _)%N = false |- _ => apply N.leb_gt in H
  end.

(** Two characters have the same lower case exactly when they are the same
    letter up to case. *)
Lemma toLowerCase_same_char a b :
  ascii_toLowerCase a = ascii_toLowerCase b ↔ same_char_ignoring_case a b.
Proof.
  unfold same_char_ignoring_case. cbv zeta. split.
  - intros H. apply (f_equal N_of_ascii) in H.
    rewrite !N_of_ascii_toLowerCase in H.
    destruct ((65 <=? N_of_ascii a) && (N_of_ascii a <=? 90))%N eqn:Ha;
    destruct ((65 <=? N_of_ascii b) && (N_of_ascii b <=? 90))%N eqn:Hb;
    letter_bounds.
    + left. apply N_of_ascii_inj. lia.
    + right. left. lia.
    + right. left. lia.
    + right. right. lia.
    + right. right. lia.
    + left. by apply N_of_ascii_inj.
    + left. by apply N_of_ascii_inj.
    + left. by apply N_of_ascii_inj.
    + left. by apply N_of_ascii_inj.
  - intros [->|[[Ha Hb]|[Hb Ha]]]; [done|..];
      apply N_of_ascii_inj; rewrite !N_of_ascii_toLowerCase;
      rewrite Hb || rewrite Ha.
    + replace ((65 <=? N_of_ascii a) && (N_of_ascii a <=? 90))%N with true
        by (symmetry; apply andb_true_iff; rewrite !N.leb_le; lia).
      replace ((65 <=? N_of_ascii a + 32) && (N_of_ascii a + 32 <=? 90))%N
        with false; [done|].
      symmetry. apply andb_false_iff. rewrite !N.leb_gt. lia.
    + replace ((65 <=? N_of_ascii b) && (N_of_ascii b <=? 90))%N with true
        by (symmetry; apply andb_true_iff; rewrite !N.leb_le; lia).
      replace ((65 <=? N_of_ascii b + 32) && (N_of_ascii b + 32 <=? 90))%N
        with false; [done|].
      symmetry. apply andb_false_iff. rewrite !N.leb_gt. lia.
Qed.

Lemma toLowerCase_same s t :
  toLowerCase s = toLowerCase t ↔ same_ignoring_case s t.
Proof.
  unfold toLowerCase. split.
  - revert t. induction s as [|a s IH]; intros [|b t] H; simpl in H;
      try discriminate.
    + constructor.
    + simplify_eq. constructor; [by apply toLowerCase_same_char|by apply IH].
  - induction 1 as [|a b s t Hab _ IH]; simpl; [done|].
    apply toLowerCase_same_char in Hab. by rewrite Hab, IH.
Qed.

(** The test of the p_no and name filters is the occurrence of the filter
    text up to case. *)
Lemma includes_ignoring_case s needle :
  includes (toLowerCase s) (toLowerCase needle) = true
  ↔ occurs_ignoring_case needle s.
Proof.
  rewrite includes_occurs. unfold occurs, occurs_ignoring_case, toLowerCase.
  split.
  - intros (x & z & Hs).
    apply string_map_app_inv in Hs as (pre & rest & -> & <- & Hrest).
    apply string_map_app_inv in Hrest as (mid & post & -> & Hmid & <-).
    exists pre, mid, post. split; [done|]. by apply toLowerCase_same.
  - intros (pre & mid & post & -> & Hsame).
    apply toLowerCase_same in Hsame. unfold toLowerCase in Hsame.
    exists (string_map ascii_toLowerCase pre), (string_map ascii_toLowerCase post).
    by rewrite !string_map_app, Hsame.
Qed.

End Substrings.

Section Filters.

Implicit Types (q : Query) (ps : list Participant) (p : Participant).
Implicit Types (param : option string) (f : string).

Lemma supplied_Some param :
  supplied param = true ↔ ∃ f, param = Some f ∧ f ≠ "".
Proof.
  unfold supplied. destruct param as [f|].
  - rewrite negb_true_iff, bool_decide_eq_false. naive_solver.
  - naive_solver.
Qed.

Lemma elem_of_filter_when param (pred : string → Participant → bool) ps p :
  p ∈ filter_when param pred ps
  ↔ p ∈ ps ∧ ∀ f, param = Some f → f ≠ "" → pred f p = true.
Proof.
  unfold filter_when. destruct (supplied param) eqn:Hs.
  - apply supplied_Some in Hs as (f & -> & Hf). simpl.
    rewrite list_elem_of_filter, Is_true_true. split.
    + intros [Hp Hin]. split; [done|]. intros f' ? _. by simplify_eq.
    + intros [Hin Hp]. split; [by apply Hp|done].
  - split; [|by intros [? _]]. intros Hin. split; [done|].
    intros f -> Hf. assert (supplied (Some f) = true) by (apply supplied_Some; eauto).
    congruence.
Qed.



End Filters.



(** The spec's example: asking for trade "Welding" and gender "M" keeps the
    records that have both, here none of the 25 women, while trade
    "Welding" alone keeps them all; the p_no filter "p1" finds "P1" and
    "P10" to "P19", whatever the case. *)
Example search_trade_and_gender :
  filteredParticipants
    {| q_p_no := None; q_mobile_no := None; q_name := None;
       q_trade := Some "Welding"; q_gender := Some "M";
       q_page := None; q_limit := None |}
    (participants Sample.server25) = []
  ∧ filteredParticipants
      {| q_p_no := None; q_mobile_no := None; q_name := None;
         q_trade := Some "Welding"; q_gender := Some "";
         q_page := None; q_limit := None |}
      (participants Sample.server25) = participants Sample.server25
  ∧ filteredParticipants
      {| q_p_no := Some "p1"; q_mobile_no := None; q_name := None;
         q_trade := None; q_gender := None;
         q_page := None; q_limit := None |}
      (participants Sample.server25)
    = Sample.person 1 :: (Sample.person <$> seq 10 10).
Proof. repeat split; vm_compute; reflexivity. Qed.


Lemma duplicate_check_merged_keys_witness :
  [Sample.rowCross] !! 0%nat = Some Sample.rowCross
  ∧ Sample.person 0 ∈ participants Sample.server1
  ∧ "980" ∈ keysOf (Sample.person 0)
  ∧ skipped Sample.clock (participants Sample.server1) [Sample.rowCross] 0
            Sample.rowCross.
Proof.
  assert (H0 : [Sample.rowCross] !! 0%nat = Some Sample.rowCross)
    by reflexivity.
  assert (H1 : Sample.person 0 ∈ participants Sample.server1) by (simpl; left).
  assert (H2 : "980" ∈ keysOf (Sample.person 0))
    by (vm_compute; right; left).
  repeat (split; [assumption|]).
  destruct duplicate_check_merged_keys as (_ & Hskip & _).
  apply (Hskip Sample.clock (participants Sample.server1) [Sample.rowCross]
           0%nat Sample.rowCross (Sample.person 0) "980" H0 H1 H2).
  left. vm_compute. reflexivity.
Defined.

(** Numeric key cells.  [duplicateCheck.has(row['P.No'])] looks the raw cell
    up among keys that are strings, so a row whose P.No and Mobile No cells
    are numbers matches no stored record: uploading the same one-row sheet
    twice inserts its record twice. *)
Example upload_numeric_sheet_twice :
  ∃ once twice,
    upload Sample.clock [Sample.rowNumeric] Sample.emptyServer
    = ({| status := 200;
          body := BUpload "Successfully processed 1 records" 1 0 |}, once)
    ∧ upload Sample.clock [Sample.rowNumeric] once
      = ({| status := 200;
            body := BUpload "Successfully processed 1 records" 1 0 |}, twice)
    ∧ p_no <$> participants twice = ["201"; "201"]
    ∧ mobile_no <$> participants twice = ["9000000201"; "9000000201"].
Proof.
  eexists _, _. split; [vm_compute; reflexivity|].
  split; [vm_compute; reflexivity|].
  split; vm_compute; reflexivity.
Qed.

(** ** GET /api/trades and GET /api/genders *)

Section LookupLists.

Implicit Types (s arr : list string) (x y : string) (st : ServerState).

Lemma elem_of_Set_add s x y : y ∈ Set_add s x ↔ y ∈ s ∨ y = x.
Proof.
  unfold Set_add. case_bool_decide as Hx.
  - split; [by left|]. intros [?| ->]; done.
  - by rewrite elem_of_app, list_elem_of_singleton.
Qed.

Lemma NoDup_Set_add s x : NoDup s → NoDup (Set_add s x).
Proof.
  intros Hs. unfold Set_add. case_bool_decide as Hx; [done|].
  apply NoDup_app. split; [done|]. split.
  - intros y Hy ->%list_elem_of_singleton. done.
  - apply NoDup_singleton.
Qed.

(** Adding the elements of [arr] to a set keeps the set as it stands and
    appends first occurrences, in the order of [arr]. *)
Lemma foldl_Set_add s arr :
  NoDup s →
  NoDup (foldl Set_add s arr)
  ∧ (∀ y, y ∈ foldl Set_add s arr ↔ y ∈ s ∨ y ∈ arr)
  ∧ ∃ added, foldl Set_add s arr = s ++ added ∧ sublist added arr.
Proof.
  revert s. induction arr as [|x arr IH]; intros s Hs; simpl.
  - split; [done|]. split.
    + intros y. rewrite elem_of_nil. tauto.
    + exists []. by rewrite app_nil_r.
  - destruct (IH (Set_add s x) (NoDup_Set_add s x Hs))
      as (Hnd & Hin & added & Heq & Hsub).
    split; [done|]. split.
    + intros y. rewrite Hin, elem_of_Set_add, elem_of_cons. tauto.
    + rewrite Heq. unfold Set_add. case_bool_decide as Hx.
      * exists added. split; [done|]. by apply sublist_cons.
      * exists (x :: added). rewrite <- app_assoc. split; [done|].
        by apply sublist_skip.
Qed.

Lemma Set_spread_app arr arr' :
  Set_spread (arr ++ arr') = foldl Set_add (Set_spread arr) arr'.
Proof. unfold Set_spread. by rewrite foldl_app. Qed.

Lemma Set_spread_prefix arr arr' :
  Set_spread arr `prefix_of` Set_spread (arr ++ arr').
Proof.
  rewrite Set_spread_app.
  destruct (foldl_Set_add [] arr (NoDup_nil_2)) as (Hnd & _ & _).
  destruct (foldl_Set_add (Set_spread arr) arr' Hnd) as (_ & _ & added & -> & _).
  by exists added.
Qed.

(** The list made from a field of the store: no value twice, never the
    empty string, every other value of the field, in the order in which
    the values first appear in the store. *)
Lemma distinct_values (field : Participant → string) st :
  NoDup (Set_spread (filter (λ t, nonEmpty t) (field <$> participants st)))
  ∧ (∀ t, t ∈ Set_spread (filter (λ t, nonEmpty t) (field <$> participants st))
          ↔ t ≠ "" ∧ ∃ p, p ∈ participants st ∧ field p = t)
  ∧ sublist (Set_spread (filter (λ t, nonEmpty t) (field <$> participants st)))
            (field <$> participants st).
Proof.
  destruct (foldl_Set_add [] (filter (λ t, nonEmpty t) (field <$> participants st))
              NoDup_nil_2) as (Hnd & Hin & added & Heq & Hsub).
  fold (Set_spread (filter (λ t, nonEmpty t) (field <$> participants st)))
    in Hnd, Hin, Heq.
  split; [done|]. split.
  - intros t. rewrite Hin, elem_of_nil, list_elem_of_filter, list_elem_of_fmap.
    unfold nonEmpty. rewrite negb_True, bool_decide_spec. naive_solver.
  - rewrite Heq. simpl. etrans; [exact Hsub|]. apply sublist_filter.
Qed.

End LookupLists.

Section FirstAppearance.

Implicit Types (col res : list string) (x t u : string) (i j a b : nat).

Lemma Set_spread_snoc col x :
  Set_spread (col ++ [x]) = Set_add (Set_spread col) x.
Proof. unfold Set_spread. by rewrite foldl_app. Qed.

Lemma elem_of_Set_spread col x : x ∈ Set_spread col ↔ x ∈ col.
Proof.
  destruct (foldl_Set_add [] col NoDup_nil_2) as (_ & Hin & _).
  unfold Set_spread. rewrite Hin, elem_of_nil. tauto.
Qed.

(** An occurrence of [t] that comes before every occurrence of [u] stays
    one when an element is added at the end, unless that element is a
    first [u]. *)
Lemma precedes_snoc col x t u :
  (∃ a, col !! a = Some t ∧ ∀ b, col !! b = Some u → (a < b)%nat) →
  ∃ a, (col ++ [x]) !! a = Some t
       ∧ ∀ b, (col ++ [x]) !! b = Some u → (a < b)%nat.
Proof.
  intros (a & Ha & Hbefore). exists a. split; [by apply lookup_app_l_Some|].
  intros b [[_ Hb]|[-> _]]%lookup_snoc_Some; [by apply Hbefore|].
  by eapply lookup_lt_Some.
Qed.

(** In the list made from the kept values of a column, a value stands
    before another exactly as their first appearances stand in the column:
    the earlier one occurs in the column before every occurrence of the
    later one. *)
Lemma Set_spread_first_appearance (keep : string → bool) col i j t u :
  Set_spread (filter (λ y, keep y) col) !! i = Some t →
  Set_spread (filter (λ y, keep y) col) !! j = Some u →
  (i < j)%nat →
  ∃ a, col !! a = Some t ∧ ∀ b, col !! b = Some u → (a < b)%nat.
Proof.
  revert i j t u. induction col as [|x col IH] using rev_ind;
    intros i j t u Hi Hj Hij.
  - done.
  - rewrite filter_app, (filter_singleton _ x []) in Hi, Hj.
    destruct (decide (keep x)) as [Hkeep|Hdrop].
    + rewrite Set_spread_snoc in Hi, Hj. unfold Set_add in Hi, Hj.
      case_bool_decide as Hx.
      * apply precedes_snoc. by apply (IH i j).
      * apply lookup_snoc_Some in Hj as [[_ Hj]|[-> ->]].
        -- apply lookup_snoc_Some in Hi as [[_ Hi]|[-> _]].
           ++ apply precedes_snoc. by apply (IH i j).
           ++ apply lookup_lt_Some in Hj. lia.
        -- apply lookup_snoc_Some in Hi as [[_ Hi]|[-> _]]; [|lia].
           assert (Ht : t ∈ col).
           { apply list_elem_of_lookup_2 in Hi.
             rewrite elem_of_Set_spread in Hi.
             by apply list_elem_of_filter in Hi as [_ ?]. }
           apply list_elem_of_lookup in Ht as [a Ha]. exists a.
           split; [by apply lookup_app_l_Some|].
           intros b [[_ Hb]|[-> _]]%lookup_snoc_Some.
           ++ destruct Hx. rewrite elem_of_Set_spread.
              apply list_elem_of_filter.
              split; [done|]. by eapply list_elem_of_lookup_2.
           ++ by eapply lookup_lt_Some.
    + rewrite app_nil_r in Hi, Hj. apply precedes_snoc. by apply (IH i j).
Qed.

Lemma distinct_values_order (field : Participant → string) (st : ServerState)
    i j t u :
  Set_spread (filter (λ y, nonEmpty y) (field <$> participants st)) !! i = Some t →
  Set_spread (filter (λ y, nonEmpty y) (field <$> participants st)) !! j = Some u →
  (i < j)%nat →
  ∃ a p, participants st !! a = Some p ∧ field p = t
         ∧ ∀ b p', participants st !! b = Some p' → field p' = u → (a < b)%nat.
Proof.
  intros Hi Hj Hij.
  destruct (Set_spread_first_appearance nonEmpty _ i j t u Hi Hj Hij)
    as (a & Ha & Hbefore).
  rewrite list_lookup_fmap in Ha.
  destruct (participants st !! a) as [p|] eqn:Hp; [|done].
  simpl in Ha. exists a, p. split; [done|]. split; [congruence|].
  intros b p' Hb Hu. apply Hbefore. by rewrite list_lookup_fmap, Hb; simpl; rewrite Hu.
Qed.

End FirstAppearance.

(** X1. GET /api/trades lists each trade of the store once and only once,
    leaves out the empty trade, and keeps the order in which the trades
    first appear in the store: of two trades of the list, the one listed
    first is the trade of a stored record that comes before every stored
    record with the other trade. *)
Theorem trades_distinct_nonempty (st : ServerState) :
  NoDup (trades st)
  ∧ (∀ t, t ∈ trades st ↔ t ≠ "" ∧ ∃ p, p ∈ participants st ∧ trade p = t)
  ∧ sublist (trades st) (trade <$> participants st)
  ∧ (∀ i j t u,
       trades st !! i = Some t → trades st !! j = Some u → (i < j)%nat →
       ∃ a p, participants st !! a = Some p ∧ trade p = t
              ∧ ∀ b p', participants st !! b = Some p' → trade p' = u →
                        (a < b)%nat).
Proof.
  destruct (distinct_values trade st) as (Hnd & Hin & Hsub).
  split; [exact Hnd|]. split; [exact Hin|]. split; [exact Hsub|].
  apply (distinct_values_order trade).
Qed.

Lemma trades_distinct_nonempty_witness :
  trades Sample.serverMixed !! 0%nat = Some "Welding"
  ∧ trades Sample.serverMixed !! 1%nat = Some "Plumbing"
  ∧ ∃ a p, participants Sample.serverMixed !! a = Some p
           ∧ trade p = "Welding"
           ∧ ∀ b p', participants Sample.serverMixed !! b = Some p' →
                     trade p' = "Plumbing" → (a < b)%nat.
Proof.
  assert (H0 : trades Sample.serverMixed !! 0%nat = Some "Welding")
    by (vm_compute; reflexivity).
  assert (H1 : trades Sample.serverMixed !! 1%nat = Some "Plumbing")
    by (vm_compute; reflexivity).
  split; [exact H0|]. split; [exact H1|].
  destruct (trades_distinct_nonempty Sample.serverMixed) as (_ & _ & _ & Hord).
  exact (Hord 0%nat 1%nat "Welding" "Plumbing" H0 H1 ltac:(lia)).
Defined.

(** X2. GET /api/genders lists each gender of the store once and only
    once, leaves out the empty gender, and keeps the order in which the
    genders first appear in the store: of two genders of the list, the one
    listed first is the gender of a stored record that comes before every
    stored record with the other gender. *)
Theorem genders_distinct_nonempty (st : ServerState) :
  NoDup (genders st)
  ∧ (∀ g, g ∈ genders st ↔ g ≠ "" ∧ ∃ p, p ∈ participants st ∧ gender p = g)
  ∧ sublist (genders st) (gender <$> participants st)
  ∧ (∀ i j g h,
       genders st !! i = Some g → genders st !! j = Some h → (i < j)%nat →
       ∃ a p, participants st !! a = Some p ∧ gender p = g
              ∧ ∀ b p', participants st !! b = Some p' → gender p' = h →
                        (a < b)%nat).
Proof.
  destruct (distinct_values gender st) as (Hnd & Hin & Hsub).
  split; [exact Hnd|]. split; [exact Hin|]. split; [exact Hsub|].
  apply (distinct_values_order gender).
Qed.

Lemma genders_distinct_nonempty_witness :
  genders Sample.serverMixed !! 0%nat = Some "F"
  ∧ genders Sample.serverMixed !! 1%nat = Some "M"
  ∧ ∃ a p, participants Sample.serverMixed !! a = Some p
           ∧ gender p = "F"
           ∧ ∀ b p', participants Sample.serverMixed !! b = Some p' →
                     gender p' = "M" → (a < b)%nat.
Proof.
  assert (H0 : genders Sample.serverMixed !! 0%nat = Some "F")
    by (vm_compute; reflexivity).
  assert (H1 : genders Sample.serverMixed !! 1%nat = Some "M")
    by (vm_compute; reflexivity).
  split; [exact H0|]. split; [exact H1|].
  destruct (genders_distinct_nonempty Sample.serverMixed) as (_ & _ & _ & Hord).
  exact (Hord 0%nat 1%nat "F" "M" H0 H1 ltac:(lia)).
Defined.

(** ** POST /api/upload: what every upload keeps *)

Section UploadAlways.

Variable now : Z → string.

Implicit Types (jsonData : list Row) (row : Row) (st : ServerState).

(** The three ways an upload ends. *)
Lemma upload_cases jsonData st :
  (missingColumns jsonData ≠ []
   ∧ upload now jsonData st =
       ({| status := 400;
           body := BMissingColumns
                     ("Missing required columns: "
                        +:+ join ", " (missingColumns jsonData))
                     (missingColumns jsonData) |}, st))
  ∨ (missingColumns jsonData = []
     ∧ validationErrors (validate jsonData) ≠ []
     ∧ upload now jsonData st =
         ({| status := 400;
             body := BValidation "Validation failed"
                       (validationErrors (validate jsonData)) |}, st))
  ∨ (passesValidation jsonData
     ∧ upload now jsonData st =
         ({| status := 200;
             body := BUpload
                       ("Successfully processed "
                          +:+ pretty (Z.of_nat (length jsonData)) +:+ " records")
                       (Z.of_nat (length (keptRows now (participants st) jsonData)))
                       (Z.of_nat (length (skippedRows now (participants st) jsonData))) |},
          {| participants :=
               participants st
                 ++ imap (λ n row, newParticipant row (now (Z.of_nat n)))
                         (keptRows now (participants st) jsonData);
             file_writes :=
               file_writes st
                 ++ [participants st
                       ++ imap (λ n row, newParticipant row (now (Z.of_nat n)))
                               (keptRows now (participants st) jsonData)] |})).
Proof.
  destruct (missingColumns jsonData) as [|c cs] eqn:Hcols.
  - destruct (validationErrors (validate jsonData)) as [|e es] eqn:Herrs.
    + right. right. assert (Hv : passesValidation jsonData) by done.
      split; [done|]. by apply upload_valid.
    + right. left. split; [done|]. split; [done|].
      by rewrite (upload_after_schema _ _ _ Hcols), Herrs.
  - left. split; [done|]. rewrite <- Hcols. apply upload_schema_branch.
    by rewrite Hcols.
Qed.

End UploadAlways.


(** ** POST /api/upload: keys of the records created *)

Section FreshKeys.

Variable now : Z → string.

Implicit Types (ps new : list Participant) (jsonData : list Row) (row : Row).
Implicit Types (p rec : Participant) (i j n : nat).

Lemma NoDup_fmap_eq {A B} (f : A → B) (l : list A) (x y : A) :
  NoDup (f <$> l) → x ∈ l → y ∈ l → f x = f y → x = y.
Proof.
  intros Hnd [i Hi]%list_elem_of_lookup [j Hj]%list_elem_of_lookup Hf.
  assert (i = j) as ->.
  { apply (NoDup_lookup _ i j (f x) Hnd).
    - by rewrite list_lookup_fmap, Hi.
    - by rewrite list_lookup_fmap, Hj, Hf. }
  congruence.
Qed.

Lemma NoDup_snoc {A} (l : list A) (x : A) :
  NoDup l → x ∉ l → NoDup (l ++ [x]).
Proof.
  intros Hl Hx. apply NoDup_app. split; [done|]. split.
  - intros y Hy ->%list_elem_of_singleton. done.
  - apply NoDup_singleton.
Qed.

Lemma has_false_no_key (dc : gmap JSValue Participant) (a : string) ps p :
  (∀ k, is_Some (dc !! k) ↔ ∃ p, p ∈ ps ∧ keyOf k p) →
  has dc (JString a) = false → p ∈ ps → a ≠ p_no p ∧ a ≠ mobile_no p.
Proof.
  intros Hkeys Hhas Hp. unfold has in Hhas.
  apply bool_decide_eq_false in Hhas. rewrite Hkeys in Hhas.
  split; intros ->; apply Hhas; exists p; (split; [done|]);
    unfold keyOf; auto.
Qed.

(** The records the insertion loop creates from rows with text keys have
    p_nos that differ from one another and from every stored p_no, and
    likewise for the mobile_nos. *)
Lemma insertRows_fresh ps jsonData :
  Forall textKeys jsonData →
  NoDup (p_no <$> newParticipants (insertRows now ps jsonData))
  ∧ NoDup (mobile_no <$> newParticipants (insertRows now ps jsonData))
  ∧ ∀ rec p, rec ∈ newParticipants (insertRows now ps jsonData) → p ∈ ps →
      p_no rec ≠ p_no p ∧ mobile_no rec ≠ mobile_no p.
Proof.
  induction jsonData as [|row jsonData IH] using rev_ind; intros Htext.
  - simpl. repeat split; try apply NoDup_nil_2.
    all: intros; exfalso; by eapply elem_of_nil.
  - apply Forall_app in Htext as [Htext Hrow].
    apply Forall_singleton in Hrow as (a & b & Ha & Hb).
    destruct (IH Htext) as (IHp & IHm & IHs).
    destruct (insertRows_invariant now ps jsonData) as [_ Hkeys].
    rewrite insertRows_snoc, insertRow_unfold.
    destruct (isDuplicate _ row) eqn:Hdup; [done|].
    unfold isDuplicate in Hdup. rewrite Ha, Hb in Hdup.
    apply orb_false_iff in Hdup as [Hpa Hmb].
    simpl. rewrite !fmap_app. simpl. rewrite Ha, Hb. simpl.
    split; [|split].
    + apply NoDup_snoc; [done|]. intros (q & Hq & Hin)%list_elem_of_fmap.
      destruct (has_false_no_key _ a _ q Hkeys Hpa) as [? _]; [|done].
      rewrite elem_of_app. by right.
    + apply NoDup_snoc; [done|]. intros (q & Hq & Hin)%list_elem_of_fmap.
      destruct (has_false_no_key _ b _ q Hkeys Hmb) as [_ ?]; [|done].
      rewrite elem_of_app. by right.
    + intros rec p [Hrec| ->%list_elem_of_singleton]%elem_of_app Hp.
      * by apply IHs.
      * simpl. rewrite Ha, Hb. simpl.
        destruct (has_false_no_key _ a _ p Hkeys Hpa) as [? _];
          [rewrite elem_of_app; by left|].
        destruct (has_false_no_key _ b _ p Hkeys Hmb) as [_ ?];
          [rewrite elem_of_app; by left|].
        done.
Qed.

Lemma NoDup_fmap_app {A B} (f : A → B) (l l' : list A) :
  NoDup (f <$> l) → NoDup (f <$> l') →
  (∀ x y, x ∈ l' → y ∈ l → f x ≠ f y) →
  NoDup (f <$> l ++ l').
Proof.
  intros Hl Hl' Hne. rewrite fmap_app. apply NoDup_app. split; [done|].
  split; [|done].
  intros b (y & -> & Hy)%list_elem_of_fmap (x & Hxy & Hx)%list_elem_of_fmap.
  by apply (Hne x y).
Qed.

Lemma find_fresh ps new rec :
  rec ∈ new → NoDup (p_no <$> new) →
  (∀ r p, r ∈ new → p ∈ ps → p_no r ≠ p_no p) →
  List.find (λ p, bool_decide (p_no p = p_no rec)) (ps ++ new) = Some rec.
Proof.
  intros Hrec Hnd Hfresh.
  destruct (find_first (λ p, bool_decide (p_no p = p_no rec)) (ps ++ new))
    as [[_ Hall]|(i & x & Hfind & Hi & Hx & _)].
  - specialize (Hall rec). rewrite elem_of_app in Hall.
    specialize (Hall (or_intror Hrec)).
    by apply bool_decide_eq_false in Hall.
  - rewrite Hfind. f_equal. apply bool_decide_eq_true in Hx.
    apply list_elem_of_lookup_2 in Hi. apply elem_of_app in Hi as [Hi|Hi].
    + by destruct (Hfresh rec x Hrec Hi).
    + by apply (NoDup_fmap_eq p_no new).
Qed.

Lemma insertionBefore_all ps jsonData :
  insertionBefore now ps jsonData (length jsonData) = insertRows now ps jsonData.
Proof. unfold insertionBefore. by rewrite firstn_all. Qed.

Lemma newParticipants_before_subseteq ps jsonData i p :
  (i ≤ length jsonData)%nat →
  p ∈ newParticipants (insertionBefore now ps jsonData i) →
  p ∈ newParticipants (insertRows now ps jsonData).
Proof.
  intros Hi Hin.
  apply (elem_of_newParticipants_before now ps jsonData i p Hi) in Hin
    as (j & earlier & Hj & Hlook & Hkept & ->).
  pose proof (elem_of_newParticipants_before now ps jsonData (length jsonData)
                (newParticipant earlier
                   (now (insertCount (insertionBefore now ps jsonData j))))
                ltac:(lia)) as Hiff.
  rewrite insertionBefore_all in Hiff.
  apply Hiff. exists j, earlier. split; [lia|done].
Qed.

(** Once a batch with text keys has gone through the insertion loop, each
    of its rows has a key among the keys of the store and of the records
    created: the kept rows their own, the skipped rows the one that made
    them duplicates. *)
Lemma row_key_after ps jsonData i row :
  jsonData !! i = Some row → textKeys row →
  ∃ p key, p ∈ ps ++ newParticipants (insertRows now ps jsonData)
           ∧ key ∈ keysOf p
           ∧ (get row "P.No" = JString key ∨ get row "Mobile No" = JString key).
Proof.
  intros Hrow (a & b & Ha & Hb).
  assert (Hi : (i < length jsonData)%nat) by (by eapply lookup_lt_Some).
  destruct (skips now ps jsonData i row) eqn:Hs.
  - destruct (insertRows_invariant now ps (take i jsonData)) as [_ Hkeys].
    fold (insertionBefore now ps jsonData i) in Hkeys.
    unfold skips, isDuplicate in Hs. rewrite Ha, Hb in Hs.
    apply orb_true_iff in Hs.
    rewrite !(has_text_key _ _ _ Hkeys) in Hs.
    assert (Hlift : ∀ p,
              p ∈ ps ++ newParticipants (insertionBefore now ps jsonData i) →
              p ∈ ps ++ newParticipants (insertRows now ps jsonData)).
    { intros p. rewrite !elem_of_app. intros [Hin|Hin]; [by left|right].
      apply (newParticipants_before_subseteq ps jsonData i); [lia|done]. }
    destruct Hs as [(p & Hin & Hk)|(p & Hin & Hk)].
    + exists p, a. split; [by apply Hlift|]. split; [done|by left].
    + exists p, b. split; [by apply Hlift|]. split; [done|by right].
  - exists (newParticipant row
              (now (insertCount (insertionBefore now ps jsonData i)))), a.
    split; [|split].
    + rewrite elem_of_app. right.
      apply (newParticipants_before_subseteq ps jsonData (S i)); [lia|].
      apply elem_of_newParticipants_before; [lia|].
      exists i, row. split; [lia|done].
    + unfold keysOf. simpl. rewrite Ha. left.
    + by left.
Qed.

Lemma all_skipped_kept (now' : Z → string) ps jsonData :
  (∀ i row, jsonData !! i = Some row → skips now' ps jsonData i row = true) →
  keptRows now' ps jsonData = []
  ∧ length (skippedRows now' ps jsonData) = length jsonData.
Proof.
  intros Hall.
  assert (Hkept : keptRows now' ps jsonData = []).
  { unfold keptRows. apply concat_nil_Forall, Forall_lookup.
    intros i rows. rewrite list_lookup_imap.
    destruct (jsonData !! i) as [row|] eqn:Hrow; [|done]. simpl.
    rewrite (Hall i row Hrow). congruence. }
  split; [done|].
  pose proof (keptRows_skippedRows_length now' ps jsonData) as Hlen.
  rewrite Hkept in Hlen. simpl in Hlen. done.
Qed.

End FreshKeys.

(** X5. Uploads of sheets with text keys keep the keys of the store unique:
    if no two stored records share a p_no, and none share a mobile_no,
    the same holds after the upload. *)
Theorem upload_keeps_keys_unique (now : Z → string) (jsonData : list Row)
    (st : ServerState) :
  Forall textKeys jsonData →
  NoDup (p_no <$> participants st) → NoDup (mobile_no <$> participants st) →
  NoDup (p_no <$> participants (upload now jsonData st).2)
  ∧ NoDup (mobile_no <$> participants (upload now jsonData st).2).
Proof.
  intros Htext Hp Hm.
  destruct (upload_cases now jsonData st)
    as [[_ ->]|[(_ & _ & ->)|[_ ->]]]; simpl; [done|done|].
  rewrite <- newParticipants_kept.
  destruct (insertRows_fresh now (participants st) jsonData Htext)
    as (Hnp & Hnm & Hfresh).
  split; apply NoDup_fmap_app; try done.
  - intros x y Hx Hy. by destruct (Hfresh x y Hx Hy).
  - intros x y Hx Hy. by destruct (Hfresh x y Hx Hy).
Qed.

(** X6. Insert, then look up.  After the upload of a valid batch with text
    keys, the detail lookup for the P.No of a kept row answers 200 with the
    record created from that very row. *)
Theorem upload_then_detail (now : Z → string) (jsonData : list Row)
    (st : ServerState) (n : nat) (row : Row) :
  passesValidation jsonData → Forall textKeys jsonData →
  keptRows now (participants st) jsonData !! n = Some row →
  participantDetail (ToString (get row "P.No")) (upload now jsonData st).2
  = {| status := 200;
       body := BParticipant (newParticipant row (now (Z.of_nat n))) |}.
Proof.
  intros Hvalid Htext Hrow.
  rewrite (upload_valid now jsonData st Hvalid). unfold participantDetail. simpl.
  destruct (insertRows_fresh now (participants st) jsonData Htext)
    as (Hnp & _ & Hfresh).
  rewrite newParticipants_kept in Hnp, Hfresh.
  assert (Hrec : newParticipant row (now (Z.of_nat n))
                 ∈ imap (λ n row, newParticipant row (now (Z.of_nat n)))
                        (keptRows now (participants st) jsonData)).
  { apply list_elem_of_lookup. exists n. by rewrite list_lookup_imap, Hrow. }
  change (ToString (get row "P.No"))
    with (p_no (newParticipant row (now (Z.of_nat n)))).
  rewrite (find_fresh _ _ _ Hrec Hnp); [done|].
  intros r p Hr Hp. by destruct (Hfresh r p Hr Hp).
Qed.

(** X7. Uploading a valid sheet with text keys a second time inserts
    nothing: every row is skipped, the store stays as the first upload left
    it, and the data file receives that same store once more. *)
Theorem upload_twice (now now' : Z → string) (jsonData : list Row)
    (st : ServerState) :
  passesValidation jsonData → Forall textKeys jsonData →
  upload now' jsonData (upload now jsonData st).2
  = ({| status := 200;
        body := BUpload
                  ("Successfully processed "
                     +:+ pretty (Z.of_nat (length jsonData)) +:+ " records")
                  0 (Z.of_nat (length jsonData)) |},
     {| participants := participants (upload now jsonData st).2;
        file_writes :=
          file_writes (upload now jsonData st).2
            ++ [participants (upload now jsonData st).2] |}).
Proof.
  intros Hvalid Htext.
  rewrite (upload_valid now' jsonData _ Hvalid).
  rewrite (upload_valid now jsonData st Hvalid). simpl.
  rewrite <- newParticipants_kept.
  destruct (all_skipped_kept now'
              (participants st
                 ++ newParticipants (insertRows now (participants st) jsonData))
              jsonData) as [-> ->].
  - intros i row Hrow.
    assert (Hrowtext : textKeys row)
      by (rewrite Forall_lookup in Htext; by apply (Htext i)).
    destruct (row_key_after now (participants st) jsonData i row Hrow Hrowtext)
      as (p & key & Hp & Hkey & Hcell).
    by apply (store_key_skipped now' _ jsonData i row p key).
  - simpl. by rewrite app_nil_r.
Qed.

(** X8. A row whose P.No and Mobile No cells are not strings (numbers,
    booleans) is never skipped, whatever the store holds: the lookup in
    [duplicateCheck] is made with the raw cell and the keys are strings. *)
Theorem non_text_row_never_skipped (now : Z → string) (ps : list Participant)
    (jsonData : list Row) (i : nat) (row : Row) :
  jsonData !! i = Some row →
  notText (get row "P.No") → notText (get row "Mobile No") →
  ¬ skipped now ps jsonData i row ∧ row ∈ keptRows now ps jsonData.
Proof.
  intros Hrow Hp Hm.
  destruct (insertRows_invariant now ps (take i jsonData)) as [_ Hkeys].
  fold (insertionBefore now ps jsonData i) in Hkeys.
  assert (Hno : ∀ v, notText v →
            has (duplicateCheck (insertionBefore now ps jsonData i)) v = false).
  { intros v Hv. unfold has. apply bool_decide_eq_false. rewrite Hkeys.
    intros (p & _ & [->| ->]); by eapply Hv. }
  assert (Hs : skips now ps jsonData i row = false).
  { unfold skips, isDuplicate. by rewrite (Hno _ Hp), (Hno _ Hm). }
  split.
  - unfold skipped. by rewrite Hs.
  - unfold keptRows. apply list_elem_of_In, in_concat.
    exists [row]. split; [|by left].
    apply list_elem_of_In, list_elem_of_lookup. exists i.
    by rewrite list_lookup_imap, Hrow; simpl; rewrite Hs.
Qed.

(** ** POST /api/upload: the batches that pass validation *)

Section ValidBatches.

Implicit Types (jsonData : list Row) (row : Row) (i j : nat).


Lemma validAttendance_true v :
  validAttendance (normalizeAttendance v) = true ↔ ¬ badAttendance v.
Proof.
  rewrite <- validAttendance_false.
  destruct (validAttendance (normalizeAttendance v)); naive_solver.
Qed.

Lemma truthy_not_falsy v : truthy v = true ↔ ¬ falsy v.
Proof. rewrite falsy_truthy. destruct (truthy v); naive_solver. Qed.

(** A row is left without a row error exactly when it is well formed and
    neither its P.No nor its Mobile No is in an earlier row. *)
Lemma errorsOfRow_nil jsonData i row :
  jsonData !! i = Some row →
  errorsOfRow jsonData i row = []
  ↔ wellFormedRow row
    ∧ ¬ repeatsEarlier "P.No" jsonData i row
    ∧ ¬ repeatsEarlier "Mobile No" jsonData i row.
Proof.
  intros Hrow.
  assert (Hi : (i ≤ length jsonData)%nat)
    by (apply lookup_lt_Some in Hrow; lia).
  pose proof (seen_before jsonData i (get row "P.No") Hi) as [HP _].
  pose proof (seen_before jsonData i (get row "Mobile No") Hi) as [_ HM].
  change (∃ j earlier, _ ∧ _ ∧ get earlier "P.No" = get row "P.No")
    with (repeatsEarlier "P.No" jsonData i row) in HP.
  change (∃ j earlier, _ ∧ _ ∧ get earlier "Mobile No" = get row "Mobile No")
    with (repeatsEarlier "Mobile No" jsonData i row) in HM.
  unfold errorsOfRow, wellFormedRow. rewrite rowErrors_nil, HP, HM.
  rewrite !validAttendance_true, !truthy_not_falsy. tauto.
Qed.


End ValidBatches.


Lemma empty_batch_rejected : ¬ passesValidation [].
Proof. intros [Hcols _]. vm_compute in Hcols. discriminate. Qed.

(** X10. Rows added at the end of a sheet leave the row errors of the rows
    before them as they were: the errors of a batch start with the errors
    of each of its prefixes. *)
Theorem validation_errors_prefix (jsonData more : list Row) :
  validationErrors (validate jsonData)
  `prefix_of` validationErrors (validate (jsonData ++ more)).
Proof.
  rewrite (validate_errors (jsonData ++ more)), imap_app, concat_app.
  pose proof (validate_prefix_errors (jsonData ++ more) (length jsonData)) as H.
  rewrite take_app_length in H.
  rewrite <- H by (rewrite length_app; lia).
  by eexists.
Qed.

(** X3. An upload never removes a value from the lists of trades and of
    genders, nor moves it: the list before is a prefix of the list after. *)
Theorem upload_keeps_lookup_lists (now : Z → string) (jsonData : list Row)
    (st : ServerState) :
  trades st `prefix_of` trades (upload now jsonData st).2
  ∧ genders st `prefix_of` genders (upload now jsonData st).2.
Proof.
  assert (Hpre : participants st `prefix_of` participants (upload now jsonData st).2).
  { destruct (upload_cases now jsonData st)
      as [[_ ->]|[(_ & _ & ->)|[_ ->]]]; simpl; [done|done|by eexists]. }
  destruct Hpre as [added Hadd]. unfold trades, genders. rewrite Hadd.
  rewrite !fmap_app, !filter_app. split; apply Set_spread_prefix.
Qed.

(** ** GET /api/participants: pages *)

Section Pages.

Context {A : Type}.
Implicit Types (l : list A) (w m k : nat).

Lemma slice_sublist l (start end_ : Z) : sublist (slice l start end_) l.
Proof.
  unfold slice. etrans; [apply sublist_take|]. apply sublist_drop.
Qed.

(** A slice that ends at most [w] places after its start, or at the end of
    the list, holds at most [w] elements. *)
Lemma slice_window_length l (start w : Z) :
  0 ≤ w →
  (length (slice l start (Z.min (start + w) (Z.of_nat (length l))))
   ≤ Z.to_nat w)%nat.
Proof.
  intros Hw. unfold slice. rewrite length_take, length_drop.
  destruct (Z.ltb_spec start 0);
    destruct (Z.ltb_spec (Z.min (start + w) (Z.of_nat (length l))) 0); lia.
Qed.

Lemma range_window l (a w : nat) :
  range a (Nat.min (a + w) (length l)) l = take w (drop a l).
Proof.
  unfold range. destruct (decide (a + w ≤ length l)%nat).
  - f_equal. lia.
  - rewrite !take_ge; [done|rewrite length_drop; lia..].
Qed.

(** The first [m] windows of width [w], one after the other, are the first
    [m * w] elements of the list. *)
Lemma windows_concat l w m :
  concat ((λ k, range (k * w) (Nat.min (k * w + w) (length l)) l) <$> seq 0 m)
  = take (m * w) l.
Proof.
  induction m as [|m IH]; [done|].
  rewrite seq_S, fmap_app, concat_app, IH. simpl.
  rewrite app_nil_r, range_window, take_take_drop. f_equal. lia.
Qed.

End Pages.

Lemma found_search (q : Query) (st : ServerState) :
  found (search q st)
  = slice (filteredParticipants q (participants st))
      ((pageParam q - 1) * limitParam q)
      (Z.min ((pageParam q - 1) * limitParam q + limitParam q)
         (Z.of_nat (length (filteredParticipants q (participants st))))).
Proof. reflexivity. Qed.

Section SearchPages.

Variables (q : Query) (st : ServerState).

Implicit Types (pg : Z) (p : Participant).

Lemma found_page pg :
  1 ≤ pg → 1 ≤ limitParam q →
  found (search (withPage q pg) st)
  = range (Z.to_nat (pg - 1) * Z.to_nat (limitParam q))
      (Nat.min (Z.to_nat (pg - 1) * Z.to_nat (limitParam q)
                + Z.to_nat (limitParam q))
         (length (filteredParticipants q (participants st))))
      (filteredParticipants q (participants st)).
Proof.
  intros Hpg Hlim. rewrite found_search.
  rewrite (search_slice_positive (withPage q pg) st Hpg Hlim).
  change (filteredParticipants (withPage q pg) (participants st))
    with (filteredParticipants q (participants st)).
  change (limitParam (withPage q pg)) with (limitParam q).
  change (pageParam (withPage q pg)) with pg.
  f_equal; nia.
Qed.

Lemma elem_of_filteredParticipants (ps : list Participant) p :
  p ∈ filteredParticipants q ps ↔ p ∈ ps ∧ satisfies q p.
Proof.
  unfold filteredParticipants, satisfies, suppliedAs.
  rewrite !elem_of_filter_when.
  setoid_rewrite includes_ignoring_case.
  setoid_rewrite includes_occurs.
  setoid_rewrite bool_decide_eq_true.
  naive_solver.
Qed.

End SearchPages.

(** X11. Whatever the page, negative ones included, the records of a search
    response are stored records, in the order of the filtered list; on
    ASCII text, where [toLowerCase] is the JavaScript method, each of them
    passes the filters of the query; and with a limit L that is not
    negative given in the query there are at most L of them (at most 10
    without [limit]). *)
Theorem search_results_sound (q : Query) (st : ServerState) :
  sublist (found (search q st)) (filteredParticipants q (participants st))
  ∧ (∀ p, p ∈ found (search q st) → p ∈ participants st)
  ∧ (asciiFilters q →
     ∀ p, asciiRecord p → p ∈ found (search q st) → satisfies q p)
  ∧ (∀ L, q_limit q = Some L → 0 ≤ L →
          (length (found (search q st)) ≤ Z.to_nat L)%nat)
  ∧ (q_limit q = None → (length (found (search q st)) ≤ 10)%nat).
Proof.
  assert (Hin : ∀ p, p ∈ found (search q st) →
                     p ∈ participants st ∧ satisfies q p).
  { intros p Hp. rewrite found_search in Hp.
    apply (elem_of_filteredParticipants q).
    eapply elem_of_sublist; [exact Hp|apply slice_sublist]. }
  split; [rewrite found_search; apply slice_sublist|].
  split; [intros p Hp; by destruct (Hin p Hp)|].
  split; [intros _ p _ Hp; by destruct (Hin p Hp)|].
  split.
  - intros L HL HL0. rewrite found_search.
    assert (HlL : limitParam q = L) by (unfold limitParam; by rewrite HL).
    rewrite HlL. by apply slice_window_length.
  - intros HL. rewrite found_search.
    assert (HlL : limitParam q = 10) by (unfold limitParam; by rewrite HL).
    rewrite HlL. by apply (slice_window_length _ _ 10).
Qed.

Lemma search_results_sound_witness :
  q_limit (Sample.noFilter (Some (-1)) (Some 7)) = Some 7
  ∧ 0 ≤ 7
  ∧ asciiFilters (Sample.noFilter (Some (-1)) (Some 7))
  ∧ asciiRecord (Sample.person 11)
  ∧ Sample.person 11
      ∈ found (search (Sample.noFilter (Some (-1)) (Some 7)) Sample.server25)
  ∧ (length (found (search (Sample.noFilter (Some (-1)%Z) (Some 7%Z))
                      Sample.server25)) ≤ 7)%nat
  ∧ satisfies (Sample.noFilter (Some (-1)) (Some 7)) (Sample.person 11).
Proof.
  assert (HF : asciiFilters (Sample.noFilter (Some (-1)) (Some 7)))
    by (split; intros f Hf; discriminate Hf).
  assert (HR : asciiRecord (Sample.person 11))
    by (split; vm_compute; reflexivity).
  assert (Hin : Sample.person 11
                ∈ found (search (Sample.noFilter (Some (-1)) (Some 7))
                           Sample.server25)).
  { apply (bool_decide_unpack _). vm_compute. exact I. }
  destruct (search_results_sound (Sample.noFilter (Some (-1)) (Some 7))
              Sample.server25) as (_ & _ & Hsat & Hlen & _).
  split; [reflexivity|]. split; [lia|]. split; [exact HF|].
  split; [exact HR|]. split; [exact Hin|]. split.
  - exact (Hlen 7 eq_refl ltac:(lia)).
  - exact (Hsat HF (Sample.person 11) HR Hin).
Defined.

(** X12. With a limit from 1 on, the pages 1 to [totalPages] of a query, put
    one after the other, are the filtered list: every record that passes
    the filters is on exactly one page, and the order is kept. *)
Theorem search_pages_cover (q : Query) (st : ServerState) :
  1 ≤ limitParam q →
  concat ((λ k, found (search (withPage q (Z.of_nat k + 1)) st))
            <$> seq 0 (Z.to_nat (pagesOf q st)))
  = filteredParticipants q (participants st).
Proof.
  intros Hlim.
  pose proof (Math_ceil_div_bounds
                (Z.of_nat (length (filteredParticipants q (participants st))))
                (limitParam q) ltac:(lia)) as Hceil.
  fold (pagesOf q st) in Hceil.
  rewrite (list_fmap_ext _
             (λ k, range (k * Z.to_nat (limitParam q))
                     (Nat.min (k * Z.to_nat (limitParam q)
                               + Z.to_nat (limitParam q))
                        (length (filteredParticipants q (participants st))))
                     (filteredParticipants q (participants st)))).
  - rewrite windows_concat. apply take_ge. nia.
  - intros i k _. rewrite found_page by lia.
    by replace (Z.to_nat (Z.of_nat k + 1 - 1)) with k by lia.
Qed.

Lemma search_pages_cover_witness :
  1 ≤ limitParam (Sample.noFilter None (Some 10))
  ∧ concat ((λ k, found (search (withPage (Sample.noFilter None (Some 10))
                                   (Z.of_nat k + 1)) Sample.server25))
              <$> seq 0 3)
    = participants Sample.server25.
Proof.
  assert (H1 : 1 ≤ limitParam (Sample.noFilter None (Some 10)))
    by (vm_compute; discriminate).
  split; [exact H1|].
  exact (search_pages_cover (Sample.noFilter None (Some 10)) Sample.server25 H1).
Defined.

Lemma found_page_size (q : Query) (st : ServerState) (pg : Z) :
  1 ≤ limitParam q → 1 ≤ pg ≤ pagesOf q st →
  found (search (withPage q pg) st) ≠ []
  ∧ Z.of_nat (length (found (search (withPage q pg) st)))
    = Z.min (limitParam q)
        (Z.of_nat (length (filteredParticipants q (participants st)))
         - (pg - 1) * limitParam q)
  ∧ (pg < pagesOf q st →
     Z.of_nat (length (found (search (withPage q pg) st))) = limitParam q).
Proof.
  intros Hlim [Hpg Htp].
  pose proof (Math_ceil_div_bounds
                (Z.of_nat (length (filteredParticipants q (participants st))))
                (limitParam q) ltac:(lia)) as Hceil.
  fold (pagesOf q st) in Hceil.
  assert (Hlen :
    Z.of_nat (length (found (search (withPage q pg) st)))
    = Z.min (limitParam q)
        (Z.of_nat (length (filteredParticipants q (participants st)))
         - (pg - 1) * limitParam q)).
  { rewrite found_page by lia. rewrite range_length by lia. nia. }
  split; [|split; [exact Hlen|]].
  - intros Hnil. rewrite Hnil in Hlen. simpl in Hlen. nia.
  - intros Hlast. rewrite Hlen. nia.
Qed.

(** X13. With a limit L from 1 on given in the query, every page from 1 to
    [totalPages], the ceiling of [total / L], holds at least one record:
    exactly L records on the pages before the last, and what is left of
    the filtered list on the last. *)
Theorem search_page_in_range (q : Query) (st : ServerState) (pg L : Z) :
  q_limit q = Some L → 1 ≤ L →
  1 ≤ pg ≤ Math_ceil_div
             (Z.of_nat (length (filteredParticipants q (participants st)))) L →
  found (search (withPage q pg) st) ≠ []
  ∧ Z.of_nat (length (found (search (withPage q pg) st)))
    = Z.min L
        (Z.of_nat (length (filteredParticipants q (participants st)))
         - (pg - 1) * L)
  ∧ (pg < Math_ceil_div
            (Z.of_nat (length (filteredParticipants q (participants st)))) L →
     Z.of_nat (length (found (search (withPage q pg) st))) = L).
Proof.
  intros HL Hlim Hpg.
  assert (HlL : limitParam q = L) by (unfold limitParam; by rewrite HL).
  clear HL. subst L.
  exact (found_page_size q st pg Hlim Hpg).
Qed.

Lemma search_page_in_range_witness :
  q_limit (Sample.noFilter None (Some 7)) = Some 7
  ∧ 1 ≤ 7
  ∧ 1 ≤ 2 ≤ Math_ceil_div
              (Z.of_nat (length (filteredParticipants
                                   (Sample.noFilter None (Some 7))
                                   (participants Sample.server25)))) 7
  ∧ found (search (withPage (Sample.noFilter None (Some 7)) 2)
             Sample.server25) ≠ []
  ∧ Z.of_nat (length (found (search (withPage (Sample.noFilter None (Some 7)) 2)
                               Sample.server25))) = 7.
Proof.
  assert (H2 : 1 ≤ 2 ≤ Math_ceil_div
                         (Z.of_nat (length (filteredParticipants
                                              (Sample.noFilter None (Some 7))
                                              (participants Sample.server25)))) 7)
    by (split; vm_compute; discriminate).
  destruct (search_page_in_range (Sample.noFilter None (Some 7))
              Sample.server25 2 7 eq_refl ltac:(lia) H2)
    as (Hne & _ & Hfull).
  split; [reflexivity|]. split; [lia|]. split; [exact H2|].
  split; [exact Hne|]. apply Hfull. vm_compute. reflexivity.
Defined.

(** X14. The p_no filter and the name filter ignore the case of the filter
    text: two texts that are the same up to case select the same records. *)
Theorem search_filter_text_case (q : Query) (ps : list Participant)
    (f g : string) :
  same_ignoring_case f g →
  filteredParticipants (withPNo q f) ps = filteredParticipants (withPNo q g) ps
  ∧ filteredParticipants (withName q f) ps
    = filteredParticipants (withName q g) ps.
Proof.
  intros Hsame.
  assert (Hlow : toLowerCase f = toLowerCase g) by (by apply toLowerCase_same).
  destruct Hsame as [|a b s t Hab Hst]; [done|].
  unfold filteredParticipants, filter_when. simpl. by rewrite Hlow.
Qed.

Lemma search_filter_text_case_witness :
  same_ignoring_case "p1" "P1"
  ∧ filteredParticipants (withPNo (Sample.noFilter None None) "p1")
      (participants Sample.server25)
    = filteredParticipants (withPNo (Sample.noFilter None None) "P1")
        (participants Sample.server25).
Proof.
  assert (H : same_ignoring_case "p1" "P1").
  { apply toLowerCase_same. reflexivity. }
  split; [exact H|].
  by apply (search_filter_text_case (Sample.noFilter None None)
              (participants Sample.server25) "p1" "P1").
Defined.

(** X15. Search, then view.  In a store where no two records share a p_no,
    the detail lookup for the p_no of any record of a search response
    answers 200 with that record. *)
Theorem search_then_detail (q : Query) (st : ServerState) (p : Participant) :
  NoDup (p_no <$> participants st) →
  p ∈ found (search q st) →
  participantDetail (p_no p) st = {| status := 200; body := BParticipant p |}.
Proof.
  intros Hnd Hp.
  assert (Hin : p ∈ participants st).
  { rewrite found_search in Hp.
    apply (elem_of_filteredParticipants q).
    eapply elem_of_sublist; [exact Hp|apply slice_sublist]. }
  unfold participantDetail.
  change (participants st) with ([] ++ participants st).
  rewrite (find_fresh [] (participants st) p Hin Hnd); [done|].
  intros r p' _ Hp'. by apply elem_of_nil in Hp'.
Qed.

Lemma search_then_detail_witness :
  NoDup (p_no <$> participants Sample.server25)
  ∧ Sample.person 7 ∈ found (search (Sample.noFilter None None) Sample.server25)
  ∧ participantDetail (p_no (Sample.person 7)) Sample.server25
    = {| status := 200; body := BParticipant (Sample.person 7) |}.
Proof.
  assert (Hnd : NoDup (p_no <$> participants Sample.server25)).
  { apply (bool_decide_unpack _). vm_compute. exact I. }
  assert (Hin : Sample.person 7
                ∈ found (search (Sample.noFilter None None) Sample.server25)).
  { apply (bool_decide_unpack _). vm_compute. exact I. }
  split; [exact Hnd|]. split; [exact Hin|].
  exact (search_then_detail (Sample.noFilter None None) Sample.server25
           (Sample.person 7) Hnd Hin).
Defined.

(** ** The fields of a record *)

Section RecordFields.

Implicit Types (s : string) (c d : ascii) (row : Row) (v : JSValue).

Lemma ascii_toUpperCase_P c :
  ascii_toUpperCase c = "P"%char ↔ c = "P"%char ∨ c = "p"%char.
Proof.
  destruct c as [[] [] [] [] [] [] [] []]; vm_compute;
    (split; [intros H; try discriminate H; auto
            |intros [H|H]; try discriminate H; auto]).
Qed.

Lemma ascii_toUpperCase_A c :
  ascii_toUpperCase c = "A"%char ↔ c = "A"%char ∨ c = "a"%char.
Proof.
  destruct c as [[] [] [] [] [] [] [] []]; vm_compute;
    (split; [intros H; try discriminate H; auto
            |intros [H|H]; try discriminate H; auto]).
Qed.

Lemma toUpperCase_single s c :
  toUpperCase s = String c ""
  ↔ ∃ d, s = String d "" ∧ ascii_toUpperCase d = c.
Proof.
  unfold toUpperCase. split.
  - destruct s as [|d [|e s]]; simpl; intros H; simplify_eq. by exists d.
  - intros (d & -> & <-). done.
Qed.

Lemma toUpperCase_P s : toUpperCase s = "P" ↔ s = "P" ∨ s = "p".
Proof.
  rewrite toUpperCase_single. split.
  - intros (d & -> & [->| ->]%ascii_toUpperCase_P); auto.
  - intros [->| ->]; eexists; (split; [done|]); apply ascii_toUpperCase_P; auto.
Qed.

Lemma toUpperCase_A s : toUpperCase s = "A" ↔ s = "A" ∨ s = "a".
Proof.
  rewrite toUpperCase_single. split.
  - intros (d & -> & [->| ->]%ascii_toUpperCase_A); auto.
  - intros [->| ->]; eexists; (split; [done|]); apply ascii_toUpperCase_A; auto.
Qed.

Lemma attendanceClass_present s :
  Page.attendanceClass s = "attendance-present" ↔ s = "P".
Proof.
  unfold Page.attendanceClass. case_bool_decide; [done|].
  split; [discriminate|done].
Qed.

Lemma pretty_N_go_length (x : N) s :
  (String.length s ≤ String.length (pretty_N_go x s))%nat.
Proof.
  revert s. induction (N.lt_wf_0 x) as [x _ IH]; intros s.
  assert (x = 0 ∨ 0 < x)%N as [->|Hx] by lia; [by rewrite pretty_N_go_0|].
  rewrite pretty_N_go_step by done.
  etrans; [|apply IH; by apply N.div_lt]. simpl. lia.
Qed.

(** The decimal form of an integer is not the empty string. *)
Lemma pretty_Z_nonempty (z : Z) : pretty z ≠ "".
Proof.
  assert (Hpos : ∀ p : positive, pretty p ≠ "").
  { intros p Hp. unfold pretty, pretty_positive, pretty, pretty_N in Hp.
    destruct (decide (N.pos p = 0%N)); [done|].
    rewrite pretty_N_go_step in Hp by lia.
    pose proof (pretty_N_go_length (N.pos p `div` 10)
                  (String (pretty_N_char (N.pos p `mod` 10)) "")) as Hlen.
    rewrite Hp in Hlen. simpl in Hlen. lia. }
  destruct z as [|p|p]; unfold pretty, pretty_Z; [done|apply Hpos|done].
Qed.

(** The text of a cell is empty exactly when the cell is the empty
    string. *)
Lemma ToString_empty v : ToString v = "" ↔ v = JString "".
Proof.
  destruct v as [|s|z|[|]]; simpl; try (split; intros; discriminate).
  - split; [by intros ->|by intros [= ->]].
  - split; [intros H; by apply pretty_Z_nonempty in H|discriminate].
Qed.

Lemma ToString_or_else_empty v :
  ToString (or_else v (JString "")) = "" ↔ falsy v.
Proof.
  unfold or_else. destruct (truthy v) eqn:Ht.
  - rewrite ToString_empty. split.
    + intros ->. done.
    + intros Hf. apply falsy_truthy in Hf. congruence.
  - split; [intros _; by apply falsy_truthy|done].
Qed.

End RecordFields.

(** X16. The attendance of a record is exactly "P" or "A" if and only if the
    text of the cell is P, p, A or a; the results table shows the
    participant as present on a day if and only if the text of the cell is
    P or p.  A padded cell such as " p ", which validation lets through as
    present, is shown as absent. *)
Theorem attendance_stored_and_shown (row : Row) (stamp : string) :
  (attendance_day1 (newParticipant row stamp) ∈ ["P"; "A"]
   ↔ ToString (get row "Attendance Day 1") ∈ ["P"; "p"; "A"; "a"])
  ∧ (attendance_day2 (newParticipant row stamp) ∈ ["P"; "A"]
     ↔ ToString (get row "Attendance Day 2") ∈ ["P"; "p"; "A"; "a"])
  ∧ (Page.attendanceClass (attendance_day1 (newParticipant row stamp))
     = "attendance-present"
     ↔ ToString (get row "Attendance Day 1") ∈ ["P"; "p"])
  ∧ (Page.attendanceClass (attendance_day2 (newParticipant row stamp))
     = "attendance-present"
     ↔ ToString (get row "Attendance Day 2") ∈ ["P"; "p"]).
Proof.
  simpl. rewrite !attendanceClass_present.
  rewrite !elem_of_cons, !elem_of_nil.
  rewrite !toUpperCase_P, !toUpperCase_A. tauto.
Qed.

(** X17. The trade of a record is the empty string exactly when the Trade
    cell of its row is falsy (missing, empty, 0 or false), and likewise for
    the gender; the p_no, the mobile_no and the name of a record made from
    a well-formed row are never empty. *)
Theorem record_fields_empty (row : Row) (stamp : string) :
  (trade (newParticipant row stamp) = "" ↔ falsy (get row "Trade"))
  ∧ (gender (newParticipant row stamp) = "" ↔ falsy (get row "Gender"))
  ∧ (wellFormedRow row →
     p_no (newParticipant row stamp) ≠ ""
     ∧ mobile_no (newParticipant row stamp) ≠ ""
     ∧ name (newParticipant row stamp) ≠ "").
Proof.
  simpl. rewrite !ToString_or_else_empty. split; [done|]. split; [done|].
  intros (Hp & Hm & Hn & _). rewrite !ToString_empty.
  unfold falsy in Hp, Hm, Hn. naive_solver.
Qed.

Lemma record_fields_empty_witness :
  wellFormedRow Sample.rowNumeric
  ∧ p_no (newParticipant Sample.rowNumeric "") ≠ "".
Proof.
  assert (Hwf : wellFormedRow Sample.rowNumeric).
  { unfold wellFormedRow, falsy, badAttendance.
    replace (get Sample.rowNumeric "P.No") with (JNumber 201)
      by (vm_compute; reflexivity).
    replace (get Sample.rowNumeric "Mobile No") with (JNumber 9000000201)
      by (vm_compute; reflexivity).
    replace (get Sample.rowNumeric "Name") with (JString "Ida")
      by (vm_compute; reflexivity).
    replace (trim (toUpperCase (ToString (get Sample.rowNumeric "Attendance Day 1"))))
      with "P" by (vm_compute; reflexivity).
    replace (trim (toUpperCase (ToString (get Sample.rowNumeric "Attendance Day 2"))))
      with "A" by (vm_compute; reflexivity).
    repeat split; intros H; try (destruct H as [H|[H|[H|H]]]; discriminate H);
      destruct H as [H1 H2]; congruence. }
  split; [exact Hwf|].
  by destruct (record_fields_empty Sample.rowNumeric "") as (_ & _ & H);
    destruct (H Hwf).
Defined.

(** ** The page script *)

(** X18. What the page shows after an upload.  For a batch that passes
    validation the status is a success and gives the number of rows, of
    records inserted and of duplicates skipped; for a batch with a missing
    column it is an error that names the missing columns; for a batch with
    row errors it is the error "Validation failed" followed by all the row
    errors, separated by "; ". *)
Theorem upload_status_shown (now : Z → string) (jsonData : list Row)
    (st : ServerState) :
  (passesValidation jsonData →
   Page.uploadStatus (upload now jsonData st).1
   = (("Successfully processed "
         +:+ pretty (Z.of_nat (length jsonData)) +:+ " records")
        +:+ ". "
        +:+ pretty (Z.of_nat (length (keptRows now (participants st) jsonData)))
        +:+ " records inserted, "
        +:+ pretty (Z.of_nat (length (skippedRows now (participants st) jsonData)))
        +:+ " duplicates skipped.",
      "success"))
  ∧ (missingColumns jsonData ≠ [] →
     Page.uploadStatus (upload now jsonData st).1
     = ("Missing required columns: " +:+ join ", " (missingColumns jsonData),
        "error"))
  ∧ (missingColumns jsonData = [] →
     validationErrors (validate jsonData) ≠ [] →
     Page.uploadStatus (upload now jsonData st).1
     = ("Validation failed: "
          +:+ join "; " (validationErrors (validate jsonData)),
        "error")).
Proof.
  split; [|split].
  - intros Hvalid. by rewrite (upload_valid now jsonData st Hvalid).
  - intros Hcols. by rewrite (upload_schema_branch now jsonData st Hcols).
  - intros Hcols Herrs. rewrite (upload_after_schema now jsonData st Hcols).
    destruct (validationErrors (validate jsonData)); [done|]. reflexivity.
Qed.

Lemma upload_status_shown_witness :
  passesValidation [Sample.rowAnn; Sample.rowBob]
  ∧ Page.uploadStatus
      (upload Sample.clock [Sample.rowAnn; Sample.rowBob] Sample.server25).1
    = ("Successfully processed 2 records. 2 records inserted, 0 duplicates skipped.",
       "success").
Proof.
  assert (Hvalid : passesValidation [Sample.rowAnn; Sample.rowBob])
    by (split; vm_compute; reflexivity).
  split; [exact Hvalid|].
  destruct (upload_status_shown Sample.clock [Sample.rowAnn; Sample.rowBob]
              Sample.server25) as (Hshown & _).
  rewrite (Hshown Hvalid). vm_compute. reflexivity.
Defined.

(** X19. The two page buttons follow the answer of the server.  When the
    page of a search response lies between 1 and [totalPages], the Previous
    button is disabled exactly when the response says there is no previous
    page and the Next button exactly when it says there is no next page;
    and a click on a button that is not disabled passes the guard of
    [goToPage]. *)
Theorem pagination_controls (q : Query) (st : ServerState) :
  1 ≤ limitParam q → 1 ≤ pageParam q ≤ pagesOf q st →
  ∃ pag,
    paginationOf (search q st) = Some pag
    ∧ Page.prevDisabled (page pag) (totalPages pag) = negb (hasPrev pag)
    ∧ Page.nextDisabled (page pag) (totalPages pag) = negb (hasNext pag)
    ∧ (Page.prevDisabled (page pag) (totalPages pag) = false →
       Page.goToPage (totalPages pag) (page pag - 1) = Some (page pag - 1))
    ∧ (Page.nextDisabled (page pag) (totalPages pag) = false →
       Page.goToPage (totalPages pag) (page pag + 1) = Some (page pag + 1)).
Proof.
  intros Hlim [Hpg Htp]. unfold pagesOf in Htp.
  eexists. split; [reflexivity|]. simpl.
  unfold Page.prevDisabled, Page.nextDisabled, Page.goToPage.
  set (tp := Math_ceil_div _ _) in *.
  rewrite !Z_ltb_decide.
  repeat case_bool_decide; simpl; repeat split; intros; try done; try lia.
  all: repeat match goal with
       | |- context [(?a <=? ?b)] => destruct (Z.leb_spec a b); simpl
       end; try done; lia.
Qed.

Lemma pagination_controls_witness :
  1 ≤ limitParam (Sample.noFilter (Some 2) (Some 10))
  ∧ 1 ≤ pageParam (Sample.noFilter (Some 2) (Some 10))
      ≤ pagesOf (Sample.noFilter (Some 2) (Some 10)) Sample.server25
  ∧ ∃ pag,
      paginationOf (search (Sample.noFilter (Some 2) (Some 10)) Sample.server25)
      = Some pag
      ∧ Page.prevDisabled (page pag) (totalPages pag) = false
      ∧ Page.nextDisabled (page pag) (totalPages pag) = false.
Proof.
  assert (H1 : 1 ≤ limitParam (Sample.noFilter (Some 2) (Some 10)))
    by (vm_compute; discriminate).
  assert (H2 : 1 ≤ pageParam (Sample.noFilter (Some 2) (Some 10))
                 ≤ pagesOf (Sample.noFilter (Some 2) (Some 10)) Sample.server25)
    by (split; vm_compute; discriminate).
  split; [exact H1|]. split; [exact H2|].
  destruct (pagination_controls (Sample.noFilter (Some 2) (Some 10))
              Sample.server25 H1 H2) as (pag & Hpag & Hprev & Hnext & _).
  exists pag. split; [exact Hpag|].
  vm_compute in Hpag. injection Hpag as <-. split; reflexivity.
Defined.

Section UploadWitnesses.

Lemma textKeys_intro (row : Row) (a b : string) :
  get row "P.No" = JString a → get row "Mobile No" = JString b → textKeys row.
Proof. intros Ha Hb. by exists a, b. Qed.

Lemma sample_batch_text : Forall textKeys [Sample.rowAnn; Sample.rowBob].
Proof.
  repeat constructor.
  - apply (textKeys_intro _ "101" "9000000001"); vm_compute; reflexivity.
  - apply (textKeys_intro _ "102" "9000000002"); vm_compute; reflexivity.
Qed.

Lemma sample_batch_valid : passesValidation [Sample.rowAnn; Sample.rowBob].
Proof. split; vm_compute; reflexivity. Qed.

End UploadWitnesses.

Lemma upload_keeps_keys_unique_witness :
  Forall textKeys [Sample.rowAnn; Sample.rowBob]
  ∧ NoDup (p_no <$> participants Sample.server25)
  ∧ NoDup (mobile_no <$> participants Sample.server25)
  ∧ NoDup (p_no <$> participants
             (upload Sample.clock [Sample.rowAnn; Sample.rowBob]
                     Sample.server25).2).
Proof.
  assert (Hp : NoDup (p_no <$> participants Sample.server25))
    by (apply (bool_decide_unpack _); vm_compute; exact I).
  assert (Hm : NoDup (mobile_no <$> participants Sample.server25))
    by (apply (bool_decide_unpack _); vm_compute; exact I).
  split; [exact sample_batch_text|]. split; [exact Hp|]. split; [exact Hm|].
  by destruct (upload_keeps_keys_unique Sample.clock
                 [Sample.rowAnn; Sample.rowBob] Sample.server25
                 sample_batch_text Hp Hm).
Defined.

Lemma upload_then_detail_witness :
  passesValidation [Sample.rowAnn; Sample.rowBob]
  ∧ Forall textKeys [Sample.rowAnn; Sample.rowBob]
  ∧ keptRows Sample.clock (participants Sample.server25)
      [Sample.rowAnn; Sample.rowBob] !! 1%nat = Some Sample.rowBob
  ∧ participantDetail "102"
      (upload Sample.clock [Sample.rowAnn; Sample.rowBob] Sample.server25).2
    = {| status := 200;
         body := BParticipant (newParticipant Sample.rowBob (Sample.clock 1)) |}.
Proof.
  assert (Hkept : keptRows Sample.clock (participants Sample.server25)
                    [Sample.rowAnn; Sample.rowBob] !! 1%nat
                  = Some Sample.rowBob) by (vm_compute; reflexivity).
  split; [exact sample_batch_valid|]. split; [exact sample_batch_text|].
  split; [exact Hkept|].
  exact (upload_then_detail Sample.clock [Sample.rowAnn; Sample.rowBob]
           Sample.server25 1 Sample.rowBob sample_batch_valid
           sample_batch_text Hkept).
Defined.

Lemma upload_twice_witness :
  passesValidation [Sample.rowAnn; Sample.rowBob]
  ∧ Forall textKeys [Sample.rowAnn; Sample.rowBob]
  ∧ (upload Sample.clock [Sample.rowAnn; Sample.rowBob]
       (upload Sample.clock [Sample.rowAnn; Sample.rowBob] Sample.server25).2).1
    = {| status := 200;
         body := BUpload "Successfully processed 2 records" 0 2 |}.
Proof.
  split; [exact sample_batch_valid|]. split; [exact sample_batch_text|].
  rewrite (upload_twice Sample.clock Sample.clock
             [Sample.rowAnn; Sample.rowBob] Sample.server25
             sample_batch_valid sample_batch_text).
  vm_compute. reflexivity.
Defined.

Lemma non_text_row_never_skipped_witness :
  [Sample.rowNumeric] !! 0%nat = Some Sample.rowNumeric
  ∧ notText (get Sample.rowNumeric "P.No")
  ∧ notText (get Sample.rowNumeric "Mobile No")
  ∧ ¬ skipped Sample.clock [newParticipant Sample.rowNumeric (Sample.clock 0)]
        [Sample.rowNumeric] 0 Sample.rowNumeric.
Proof.
  assert (Hp : notText (get Sample.rowNumeric "P.No")).
  { replace (get Sample.rowNumeric "P.No") with (JNumber 201)
      by (vm_compute; reflexivity). intros s. discriminate. }
  assert (Hm : notText (get Sample.rowNumeric "Mobile No")).
  { replace (get Sample.rowNumeric "Mobile No") with (JNumber 9000000201)
      by (vm_compute; reflexivity). intros s. discriminate. }
  split; [reflexivity|]. split; [exact Hp|]. split; [exact Hm|].
  by destruct (non_text_row_never_skipped Sample.clock
                 [newParticipant Sample.rowNumeric (Sample.clock 0)]
                 [Sample.rowNumeric] 0 Sample.rowNumeric eq_refl Hp Hm).
Defined.

(** ** POST /api/upload: the records of the store *)

Section WellFormedRecords.

Implicit Types (row : Row) (v : JSValue) (p : Participant).

Lemma goodAttendance_trimmed v :
  ¬ badAttendance v → trim (toUpperCase (ToString v)) ∈ ["P"; "A"].
Proof.
  unfold badAttendance. intros Hgood. rewrite !elem_of_cons.
  destruct (decide (trim (toUpperCase (ToString v)) = "P")); [by left|].
  destruct (decide (trim (toUpperCase (ToString v)) = "A")); [right; by left|].
  by destruct Hgood.
Qed.

Lemma newParticipant_wellFormed row (stamp : string) :
  wellFormedRow row → wellFormedRecord (newParticipant row stamp).
Proof.
  intros (Hp & Hm & Hn & H1 & H2). unfold wellFormedRecord. simpl.
  rewrite !ToString_empty. unfold falsy in Hp, Hm, Hn.
  repeat split; try (by apply goodAttendance_trimmed); naive_solver.
Qed.

End WellFormedRecords.

(** X20. Uploads keep the records of the store well formed: if every stored
    record has a p_no, a mobile_no and a name that are not empty and
    attendances that are P or A up to surrounding white space, the same
    holds of every record after the upload, whatever the batch. *)
Theorem upload_keeps_records_well_formed (now : Z → string)
    (jsonData : list Row) (st : ServerState) :
  Forall wellFormedRecord (participants st) →
  Forall wellFormedRecord (participants (upload now jsonData st).2).
Proof.
  intros Hst.
  destruct (upload_cases now jsonData st)
    as [[_ ->]|[(_ & _ & ->)|[[_ Herrs] ->]]]; simpl; [done|done|].
  apply Forall_app. split; [done|].
  rewrite <- newParticipants_kept. apply Forall_forall. intros p Hp.
  rewrite <- (insertionBefore_all now) in Hp.
  apply elem_of_newParticipants_before in Hp
    as (j & row & _ & Hrow & _ & ->); [|lia].
  apply newParticipant_wellFormed.
  by apply (errorsOfRow_nil jsonData j row Hrow), valid_batch_rows.
Qed.

Lemma upload_keeps_records_well_formed_witness :
  Forall wellFormedRecord (participants Sample.emptyServer)
  ∧ Forall wellFormedRecord
      (participants
         (upload Sample.clock [Sample.rowPadded] Sample.emptyServer).2).
Proof.
  assert (H0 : Forall wellFormedRecord (participants Sample.emptyServer))
    by constructor.
  split; [exact H0|].
  exact (upload_keeps_records_well_formed Sample.clock [Sample.rowPadded]
           Sample.emptyServer H0).
Defined.
